(** * External-sync widgets: status / trigger / cancel protocol

    A shallow embedding of the React components that carry the sync
    protocol of the knowledge-base configuration page:

    - [OutlookMailSync]     mail-folder widget: id from the search
                            parameters, [/v1/api/kb/...] endpoints, a
                            404 branch in the status check;
    - [OneDriveSync]        cloud-drive widget with a folder-path field:
                            id from the search parameters,
                            [/v1/api/kb/...] endpoints, auto-trigger;
    - [OneDriveSyncBare]    cloud-drive widget without a folder field:
                            id from the route parameters,
                            [/api/kb/...] endpoints, auto-trigger;
    - [OutlookMailSyncForm] the form-only revision of the mail-folder
                            widget: fields and rules, no protocol.

    Handlers are written in a small free monad over the effects the
    components perform (HTTP requests, notifications, console output,
    [window.confirm], form-store access, React state setters, timers).
    The environment (what the backend answers, what the user answers to
    a confirmation) is an oracle the theorems quantify over.

    A handler the user starts (Sync Now, Cancel, the toggle) is followed
    to its end: the response to its request is taken as arriving before
    anything else happens. The calls made by the polling effect and by
    the timers are not awaited: such a call runs up to its first
    [await], its request is on its way while other code runs, and the
    rest of the function runs when the response arrives, also when the
    component is gone by then. How long a response takes is part of the
    environment. Browser timers are ideal: a timer due at millisecond
    [n] fires at millisecond [n]. *)

From Stdlib Require Import Ascii String List ZArith Bool Lia.
From stdpp Require Import base option gmap strings.

Local Open Scope string_scope.

(** ** JavaScript values *)

#[warnings="-register-all"]
Inductive jsval : Type :=
| JUndefined
| JNull
| JBool (b : bool)
| JNum (n : Z)
| JStr (s : string)
| JObj (fields : list (string * jsval)).

(** [if (v)], [!v], [a && b], [a || b]. *)
Definition truthy (v : jsval) : bool :=
  match v with
  | JUndefined | JNull => false
  | JBool b => b
  | JNum n => negb (Z.eqb n 0)
  | JStr s => negb (String.eqb s "")
  | JObj _ => true
  end.

Fixpoint assoc (k : string) (fs : list (string * jsval)) : jsval :=
  match fs with
  | [] => JUndefined
  | (k', v) :: fs' => if String.eqb k k' then v else assoc k fs'
  end.

(** [v?.k]; it is also [v.k] wherever [v] is known not to be nullish. *)
Definition get (v : jsval) (k : string) : jsval :=
  match v with
  | JObj fs => assoc k fs
  | _ => JUndefined
  end.

(** [v === 'lit'] *)
Definition is_str (v : jsval) (lit : string) : bool :=
  match v with
  | JStr s => String.eqb s lit
  | _ => false
  end.

(** [v === 404] *)
Definition is_num (v : jsval) (lit : Z) : bool :=
  match v with
  | JNum n => Z.eqb n lit
  | _ => false
  end.

(** [kbId]: [searchParams.get('id')] or the route parameter [id]. *)
Definition kb_id := option string.

(** [!kbId] *)
Definition missing (kbId : kb_id) : bool :=
  match kbId with
  | None => true
  | Some s => String.eqb s ""
  end.

(** [`${kbId}`] inside a template string, used only past the guard. *)
Definition kb_text (kbId : kb_id) : string :=
  match kbId with
  | None => "null"
  | Some s => s
  end.

Definition kb_val (kbId : kb_id) : jsval :=
  match kbId with
  | None => JNull
  | Some s => JStr s
  end.

(** ** HTTP layer ([request] of [@/utils/request], taken as an oracle) *)

Record reqopts := { method : string; data : list (string * jsval) }.

(** The resolved envelope: [res.data] and [res.message]. *)
Record response := { res_data : jsval; res_message : jsval }.

(** What the [catch] clause reads of a rejection:
    [error?.response?.status]. *)
Record failure := { response_status : jsval }.

(** [await request(...)] either yields [res] or throws into the
    [catch] clause. A [res] whose fields cannot be read at all throws
    there as well: it is a rejection whose [response_status] is
    [JUndefined]. *)
Inductive outcome :=
| Resolved (res : response)
| Rejected (error : failure).

(** ** Notification texts: [t('key')] or a value taken from a response *)

Inductive content :=
| T (key : string)
| Raw (v : jsval).

(** [v || t(key)] *)
Definition or_t (v : jsval) (key : string) : content :=
  if truthy v then Raw v else T key.

(** ** Functions called without [await], closure-converted: the tag
    names the function passed to [setInterval]/[setTimeout] or called
    by the polling effect, the arguments are the variables it
    captured. *)

Inductive callback :=
| OutlookCheck (kbId : kb_id)
| OneDriveCheck (kbId : kb_id)
| OneDriveBareCheck (kbId : kb_id)
| OneDriveAuto (kbId : kb_id) (email : jsval)
| OneDriveBareAuto (kbId : kb_id).

(** A call that was not awaited, while its request is on its way: the
    function that was called, the answer its request will get, and the
    millisecond at which the answer arrives. *)
Record pending := { p_cb : callback; p_answer : outcome; p_due : nat }.

(** ** Effects

    A console event keeps the text, the first argument of the call; the
    objects printed after it are left out. [GetFieldValue name] is
    [getFieldValue(['parser_config', name])], [GetParserConfig] is
    [getFieldValue('parser_config')], and [SetFieldsValue pc] is
    [setFieldsValue({parser_config: pc})]. *)

Inductive event :=
| Request (url : string) (opts : option reqopts)
| MessageSuccess (c : content)
| MessageError (c : content)
| ConsoleLog (s : string)
| ConsoleError (s : string)
| WindowConfirm (c : content)
| GetFieldValue (name : string)
| GetParserConfig
| SetFieldsValue (parser_config : gmap string jsval)
| SetSyncing (b : bool)
| SetSyncType (v : jsval)
| SetTimeout (cb : callback) (ms : nat)
| SetInterval (cb : callback) (ms : nat)
| ClearInterval (id : nat).

Definition answer (e : event) : Type :=
  match e with
  | Request _ _ => outcome
  | WindowConfirm _ => bool
  | GetFieldValue _ => jsval
  | GetParserConfig => gmap string jsval
  | SetInterval _ _ => nat
  | _ => unit
  end.

Inductive action (A : Type) : Type :=
| Ret (a : A)
| Vis (e : event) (k : answer e -> action A).

Arguments Ret {A} a.
Arguments Vis {A} e k.

Fixpoint bind {A B} (m : action A) (f : A -> action B) : action B :=
  match m with
  | Ret a => f a
  | Vis e k => Vis e (fun x => bind (k x) f)
  end.

#[export] Instance action_ret : MRet action := @Ret.
#[export] Instance action_bind : MBind action := fun A B f m => bind m f.

Definition act (e : event) : action (answer e) := Vis e Ret.

(** ** The component instance and its surroundings *)

(** [useState] cells of one widget. *)
Record hooks := { syncing : bool; syncType : jsval }.

Record timer := {
  t_id : nat;
  t_cb : callback;
  t_due : nat;
  t_period : option nat
}.

Record world := {
  form : gmap string jsval;      (* the form store's [parser_config] *)
  st : hooks;
  timers : list timer;
  inflight : list pending;       (* oldest first *)
  next_id : nat;
  now : nat;                     (* milliseconds *)
  events : list event            (* newest first *)
}.

Definition trace (w : world) : list event := rev (events w).

(** [latency] is the time a response takes beyond the millisecond in
    which its request was sent. *)
Record env := {
  respond : list event -> string -> option reqopts -> outcome;
  confirm : list event -> content -> bool;
  latency : list event -> string -> option reqopts -> nat
}.

Definition log (e : event) (w : world) : world :=
  {| form := form w; st := st w; timers := timers w;
     inflight := inflight w;
     next_id := next_id w; now := now w; events := e :: events w |}.

Definition set_form (f : gmap string jsval) (w : world) : world :=
  {| form := f; st := st w; timers := timers w;
     inflight := inflight w;
     next_id := next_id w; now := now w; events := events w |}.

Definition set_st (s : hooks) (w : world) : world :=
  {| form := form w; st := s; timers := timers w;
     inflight := inflight w;
     next_id := next_id w; now := now w; events := events w |}.

Definition set_timers (ts : list timer) (w : world) : world :=
  {| form := form w; st := st w; timers := ts;
     inflight := inflight w;
     next_id := next_id w; now := now w; events := events w |}.

Definition set_inflight (ps : list pending) (w : world) : world :=
  {| form := form w; st := st w; timers := timers w;
     inflight := ps;
     next_id := next_id w; now := now w; events := events w |}.

Definition add_timer (cb : callback) (ms : nat) (period : option nat)
  (w : world) : world :=
  {| form := form w; st := st w;
     timers := timers w ++
       [{| t_id := next_id w; t_cb := cb; t_due := now w + ms;
           t_period := period |}];
     inflight := inflight w;
     next_id := S (next_id w); now := now w; events := events w |}.

Definition field_value (f : gmap string jsval) (name : string) : jsval :=
  default JUndefined (f !! name).

Definition handle (E : env) (e : event) (w : world) : answer e * world :=
  match e as e0 return answer e0 * world with
  | Request url opts => (respond E (trace w) url opts, log (Request url opts) w)
  | MessageSuccess c => (tt, log (MessageSuccess c) w)
  | MessageError c => (tt, log (MessageError c) w)
  | ConsoleLog s => (tt, log (ConsoleLog s) w)
  | ConsoleError s => (tt, log (ConsoleError s) w)
  | WindowConfirm c => (confirm E (trace w) c, log (WindowConfirm c) w)
  | GetFieldValue name => (field_value (form w) name, log (GetFieldValue name) w)
  | GetParserConfig => (form w, log GetParserConfig w)
  | SetFieldsValue pc => (tt, log (SetFieldsValue pc) (set_form pc w))
  | SetSyncing b =>
      (tt, log (SetSyncing b)
             (set_st {| syncing := b; syncType := syncType (st w) |} w))
  | SetSyncType v =>
      (tt, log (SetSyncType v)
             (set_st {| syncing := syncing (st w); syncType := v |} w))
  | SetTimeout cb ms => (tt, log (SetTimeout cb ms) (add_timer cb ms None w))
  | SetInterval cb ms =>
      (next_id w, log (SetInterval cb ms) (add_timer cb ms (Some ms) w))
  | ClearInterval id =>
      (tt, log (ClearInterval id)
             (set_timers (List.filter (fun t => negb (Nat.eqb (t_id t) id)) (timers w)) w))
  end.

Fixpoint run {A} (E : env) (p : action A) (w : world) : A * world :=
  match p with
  | Ret a => (a, w)
  | Vis e k => let r := handle E e w in run E (k (fst r)) (snd r)
  end.

Definition exec {A} (E : env) (p : action A) (w : world) : world :=
  snd (run E p w).

(** The request of a call that is not awaited leaves; the call [cb]
    waits for its answer, which arrives in a later millisecond. *)
Definition send (E : env) (cb : callback) (url : string)
  (opts : option reqopts) (w : world) : world :=
  set_inflight
    (inflight w ++
       [{| p_cb := cb; p_answer := respond E (trace w) url opts;
           p_due := S (now w + latency E (trace w) url opts) |}])
    (log (Request url opts) w).

(** A call [f()] of an [async] function that is not awaited: [p], the
    body of the function [cb], runs up to its first [await request(...)]
    and the caller goes on; the rest of the body, which [cb] names
    ([run_reply] below), is left for the arrival of the answer. *)
Fixpoint start (E : env) (cb : callback) (p : action unit) (w : world)
  : world :=
  match p with
  | Ret _ => w
  | Vis e k =>
      match e as e0 return (answer e0 -> action unit) -> world with
      | Request url opts => fun _ => send E cb url opts w
      | e0 =>
          fun k0 => start E cb (k0 (fst (handle E e0 w))) (snd (handle E e0 w))
      end k
  end.

(** What a render hands to the handlers it creates: the closure's view
    of [kbId], of the [useState] cells and of the toggle's form value. *)
Record props := {
  kbId : kb_id;
  cells : hooks;
  syncEnabled : jsval
}.

(** ** What a widget renders *)

Inductive button := CancelButton | SyncNowButton.

(** A validation rule of a [Form.Item]: [{type, required, message}]. *)
Record rule := {
  rule_type : option string;
  rule_required : option jsval;
  rule_message : content
}.

Record item := { item_name : string; item_rules : list rule }.

Record view := {
  spinner : bool;              (* the spinning icon next to the label *)
  switch_onChange : bool;      (* the toggle has an [onChange] handler *)
  items : list item;           (* provider fields shown under the toggle *)
  action_button : option button
}.

(** ** OutlookMailSync (mail-folder widget) *)

Module OutlookMailSync.

(** [checkSyncStatus] from its [await] on: the rest of the [try] block
    for a response, the [catch] block for a rejection. *)
Definition checkSyncStatus_settled (r : outcome) : action unit :=
  match r with
  | Resolved res =>
      if truthy (get (res_data res) "is_syncing") then
        act (SetSyncing true);;
        act (SetSyncType (get (res_data res) "sync_type"))
      else
        act (SetSyncing false);;
        act (SetSyncType JNull)
  | Rejected error =>
      act (ConsoleError "Failed to check sync status:");;
      if is_num (response_status error) 404 then
        act (SetSyncing false);;
        act (SetSyncType JNull)
      else mret tt
  end.

Definition checkSyncStatus (kbId : kb_id) : action unit :=
  if missing kbId then
    act (ConsoleLog "checkSyncStatus: kbId is missing, skipping")
  else
    r ← act (Request ("/v1/api/kb/sync_status?kb_id=" ++ kb_text kbId) None);
    checkSyncStatus_settled r.

Definition triggerSync (kbId : kb_id) (email folder_name : jsval)
  : action unit :=
  if missing kbId then
    act (ConsoleError "kbId is missing")
  else
    r ← act (Request "/v1/api/kb/trigger_sync"
               (Some {| method := "POST";
                        data := [("kb_id", kb_val kbId);
                                 ("sync_type", JStr "outlook");
                                 ("email", email);
                                 ("folder_name", folder_name)] |}));
    match r with
    | Resolved res =>
        if truthy (res_data res) then
          act (MessageSuccess (T "syncStarted"));;
          act (SetSyncing true);;
          act (SetSyncType (JStr "outlook"))
        else
          act (MessageError (or_t (res_message res) "syncFailed"))
    | Rejected _ =>
        act (ConsoleError "Failed to trigger sync:");;
        act (MessageError (T "syncFailed"))
    end.

Definition cancelSync (kbId : kb_id) : action unit :=
  if missing kbId then mret tt
  else
    r ← act (Request "/v1/api/kb/cancel_sync"
               (Some {| method := "POST";
                        data := [("kb_id", kb_val kbId)] |}));
    match r with
    | Resolved res =>
        if truthy (res_data res) then
          act (MessageSuccess (T "syncCancelled"))
        else
          act (MessageError (or_t (res_message res) "cancelFailed"))
    | Rejected _ =>
        act (ConsoleError "Failed to cancel sync:");;
        act (MessageError (T "cancelFailed"))
    end.

(** The polling [useEffect]. It calls [checkSyncStatus()] without
    [await]: the interval is registered while the status request is on
    its way. The result is the interval its cleanup clears, [None] when
    the effect returns no cleanup. *)
Definition pollingEffect (E : env) (kbId : kb_id) (w : world)
  : option nat * world :=
  if missing kbId then (None, w)
  else
    let w1 := start E (OutlookCheck kbId) (checkSyncStatus kbId) w in
    run E (intervalId ← act (SetInterval (OutlookCheck kbId) 5000);
           mret (Some intervalId)) w1.

Definition handleSyncChange (p : props) (checked : bool) : action unit :=
  if negb checked && syncing (cells p) && is_str (syncType (cells p)) "outlook"
  then
    ok ← act (WindowConfirm (T "confirmCancelSync"));
    if (ok : bool) then cancelSync (kbId p)
    else
      pc ← act GetParserConfig;
      act (SetFieldsValue (<["outlook_sync_enabled" := JBool true]> pc))
  else mret tt.

Definition onClickSyncNow (p : props) : action unit :=
  email ← act (GetFieldValue "outlook_email");
  folder_name ← act (GetFieldValue "outlook_folder");
  triggerSync (kbId p) email folder_name.

Definition onClickCancel (p : props) : action unit := cancelSync (kbId p).

Definition render (p : props) : view :=
  let busy := syncing (cells p) && is_str (syncType (cells p)) "outlook" in
  {| spinner := busy;
     switch_onChange := true;
     items :=
       if truthy (syncEnabled p) then
         [ {| item_name := "outlook_email";
              item_rules :=
                [ {| rule_type := Some "email"; rule_required := None;
                     rule_message := T "outlookEmailFormatError" |};
                  {| rule_type := None;
                     rule_required := Some (syncEnabled p);
                     rule_message := T "outlookEmailRequired" |} ] |};
           {| item_name := "outlook_folder";
              item_rules :=
                [ {| rule_type := None;
                     rule_required := Some (syncEnabled p);
                     rule_message := T "outlookFolderRequired" |} ] |} ]
       else [];
     action_button :=
       if truthy (syncEnabled p) then
         Some (if busy then CancelButton else SyncNowButton)
       else None |}.

End OutlookMailSync.

(** ** OneDriveSync (cloud-drive widget with a folder-path field) *)

Module OneDriveSync.

(** [checkSyncStatus] from its [await] on: the rest of the [try] block
    for a response, the [catch] block for a rejection. *)
Definition checkSyncStatus_settled (r : outcome) : action unit :=
  match r with
  | Resolved res =>
      act (ConsoleLog "同步状态检查结果:");;
      if truthy (get (res_data res) "is_syncing") then
        act (SetSyncing true);;
        act (SetSyncType (get (res_data res) "sync_type"))
      else
        act (SetSyncing false);;
        act (SetSyncType JNull)
  | Rejected _ =>
      act (ConsoleError "Failed to check sync status:")
  end.

Definition checkSyncStatus (kbId : kb_id) : action unit :=
  if missing kbId then
    act (ConsoleLog "checkSyncStatus: kbId is missing, skipping")
  else
    r ← act (Request ("/v1/api/kb/sync_status?kb_id=" ++ kb_text kbId) None);
    checkSyncStatus_settled r.

(** [triggerSync] from its [await] on. *)
Definition triggerSync_settled (r : outcome) : action unit :=
  match r with
  | Resolved res =>
      if truthy (res_data res) then
        act (MessageSuccess (T "syncStarted"));;
        act (SetSyncing true);;
        act (SetSyncType (JStr "onedrive"))
      else
        act (MessageError (or_t (res_message res) "syncFailed"))
  | Rejected _ =>
      act (ConsoleError "Failed to trigger sync:");;
      act (MessageError (T "syncFailed"))
  end.

Definition triggerSync (kbId : kb_id) (email folder_path : jsval)
  : action unit :=
  act (ConsoleLog "triggerSync函数被调用，参数:");;
  if missing kbId then
    act (ConsoleLog "kbId为空，退出")
  else
    r ← act (Request "/v1/api/kb/trigger_sync"
               (Some {| method := "POST";
                        data := [("kb_id", kb_val kbId);
                                 ("sync_type", JStr "onedrive");
                                 ("email", email);
                                 ("folder_path", folder_path)] |}));
    triggerSync_settled r.

Definition cancelSync (kbId : kb_id) : action unit :=
  if missing kbId then mret tt
  else
    r ← act (Request "/v1/api/kb/cancel_sync"
               (Some {| method := "POST";
                        data := [("kb_id", kb_val kbId)] |}));
    match r with
    | Resolved res =>
        if truthy (res_data res) then
          act (MessageSuccess (T "syncCancelled"))
        else
          act (MessageError (or_t (res_message res) "cancelFailed"))
    | Rejected _ =>
        act (ConsoleError "Failed to cancel sync:");;
        act (MessageError (T "cancelFailed"))
    end.

Definition pollingEffect (E : env) (kbId : kb_id) (w : world)
  : option nat * world :=
  if missing kbId then (None, w)
  else
    let w1 := start E (OneDriveCheck kbId) (checkSyncStatus kbId) w in
    run E (intervalId ← act (SetInterval (OneDriveCheck kbId) 5000);
           mret (Some intervalId)) w1.

(** The function handed to [setTimeout] by [handleSyncChange]; it
    captured [email] and reads the folder path when it fires. *)
Definition autoTrigger (kbId : kb_id) (email : jsval) : action unit :=
  folder_path ← act (GetFieldValue "onedrive_folder_path");
  triggerSync kbId email folder_path.

Definition handleSyncChange (p : props) (checked : bool) : action unit :=
  returned ←
    (if negb checked && syncing (cells p)
        && is_str (syncType (cells p)) "onedrive"
     then
       ok ← act (WindowConfirm (T "confirmCancelSync"));
       if (ok : bool) then cancelSync (kbId p);; mret false
       else
         pc ← act GetParserConfig;
         act (SetFieldsValue (<["onedrive_sync_enabled" := JBool true]> pc));;
         mret true
     else mret false);
  if (returned : bool) then mret tt
  else if checked && negb (truthy (syncEnabled p)) then
    email ← act (GetFieldValue "onedrive_email");
    if truthy email then act (SetTimeout (OneDriveAuto (kbId p) email) 1000)
    else mret tt
  else mret tt.

Definition onClickSyncNow (p : props) : action unit :=
  email ← act (GetFieldValue "onedrive_email");
  folder_path ← act (GetFieldValue "onedrive_folder_path");
  act (ConsoleLog "OneDrive同步按钮被点击，参数:");;
  triggerSync (kbId p) email folder_path.

Definition onClickCancel (p : props) : action unit := cancelSync (kbId p).

Definition render (p : props) : view :=
  let busy := syncing (cells p) && is_str (syncType (cells p)) "onedrive" in
  {| spinner := busy;
     switch_onChange := true;
     items :=
       if truthy (syncEnabled p) then
         [ {| item_name := "onedrive_email";
              item_rules :=
                [ {| rule_type := Some "email"; rule_required := None;
                     rule_message := T "onedriveEmailFormatError" |};
                  {| rule_type := None;
                     rule_required := Some (syncEnabled p);
                     rule_message := T "onedriveEmailRequired" |} ] |};
           {| item_name := "onedrive_folder_path"; item_rules := [] |} ]
       else [];
     action_button :=
       if truthy (syncEnabled p) then
         Some (if busy then CancelButton else SyncNowButton)
       else None |}.

End OneDriveSync.

(** ** OneDriveSyncBare (cloud-drive widget without a folder field) *)

Module OneDriveSyncBare.

(** [checkSyncStatus] from its [await] on: the rest of the [try] block
    for a response, the [catch] block for a rejection. *)
Definition checkSyncStatus_settled (r : outcome) : action unit :=
  match r with
  | Resolved res =>
      if truthy (get (res_data res) "is_syncing") then
        act (SetSyncing true);;
        act (SetSyncType (get (res_data res) "sync_type"))
      else
        act (SetSyncing false);;
        act (SetSyncType JNull)
  | Rejected _ =>
      act (ConsoleError "Failed to check sync status:")
  end.

Definition checkSyncStatus (kbId : kb_id) : action unit :=
  if missing kbId then mret tt
  else
    r ← act (Request ("/api/kb/sync_status?kb_id=" ++ kb_text kbId) None);
    checkSyncStatus_settled r.

(** [triggerSync] from its [await] on. *)
Definition triggerSync_settled (r : outcome) : action unit :=
  match r with
  | Resolved res =>
      if truthy (res_data res) then
        act (MessageSuccess (T "syncStarted"));;
        act (SetSyncing true);;
        act (SetSyncType (JStr "onedrive"))
      else
        act (MessageError (or_t (res_message res) "syncFailed"))
  | Rejected _ =>
      act (ConsoleError "Failed to trigger sync:");;
      act (MessageError (T "syncFailed"))
  end.

Definition triggerSync (kbId : kb_id) : action unit :=
  if missing kbId then mret tt
  else
    r ← act (Request "/api/kb/trigger_sync"
               (Some {| method := "POST";
                        data := [("kb_id", kb_val kbId);
                                 ("sync_type", JStr "onedrive")] |}));
    triggerSync_settled r.

Definition cancelSync (kbId : kb_id) : action unit :=
  if missing kbId then mret tt
  else
    r ← act (Request "/api/kb/cancel_sync"
               (Some {| method := "POST";
                        data := [("kb_id", kb_val kbId)] |}));
    match r with
    | Resolved res =>
        if truthy (res_data res) then
          act (MessageSuccess (T "syncCancelled"))
        else
          act (MessageError (or_t (res_message res) "cancelFailed"))
    | Rejected _ =>
        act (ConsoleError "Failed to cancel sync:");;
        act (MessageError (T "cancelFailed"))
    end.

Definition pollingEffect (E : env) (kbId : kb_id) (w : world)
  : option nat * world :=
  if missing kbId then (None, w)
  else
    let w1 := start E (OneDriveBareCheck kbId) (checkSyncStatus kbId) w in
    run E (intervalId ← act (SetInterval (OneDriveBareCheck kbId) 5000);
           mret (Some intervalId)) w1.

Definition handleSyncChange (p : props) (checked : bool) : action unit :=
  returned ←
    (if negb checked && syncing (cells p)
        && is_str (syncType (cells p)) "onedrive"
     then
       ok ← act (WindowConfirm (T "confirmCancelSync"));
       if (ok : bool) then cancelSync (kbId p);; mret false
       else
         pc ← act GetParserConfig;
         act (SetFieldsValue (<["onedrive_sync_enabled" := JBool true]> pc));;
         mret true
     else mret false);
  if (returned : bool) then mret tt
  else if checked && negb (truthy (syncEnabled p)) then
    email ← act (GetFieldValue "onedrive_email");
    if truthy email then act (SetTimeout (OneDriveBareAuto (kbId p)) 1000)
    else mret tt
  else mret tt.

Definition onClickSyncNow (p : props) : action unit := triggerSync (kbId p).

Definition onClickCancel (p : props) : action unit := cancelSync (kbId p).

Definition render (p : props) : view :=
  let busy := syncing (cells p) && is_str (syncType (cells p)) "onedrive" in
  {| spinner := busy;
     switch_onChange := true;
     items :=
       if truthy (syncEnabled p) then
         [ {| item_name := "onedrive_email";
              item_rules :=
                [ {| rule_type := Some "email"; rule_required := None;
                     rule_message := T "onedriveEmailFormatError" |};
                  {| rule_type := None;
                     rule_required := Some (syncEnabled p);
                     rule_message := T "onedriveEmailRequired" |} ] |} ]
       else [];
     action_button :=
       if truthy (syncEnabled p) then
         Some (if busy then CancelButton else SyncNowButton)
       else None |}.

End OneDriveSyncBare.

(** ** The form-only revision of OutlookMailSync: fields, no protocol *)

Module OutlookMailSyncForm.

Definition render (p : props) : view :=
  {| spinner := false;
     switch_onChange := false;
     items :=
       if truthy (syncEnabled p) then
         [ {| item_name := "outlook_email";
              item_rules :=
                [ {| rule_type := Some "email"; rule_required := None;
                     rule_message := T "outlookEmailFormatError" |};
                  {| rule_type := None;
                     rule_required := Some (syncEnabled p);
                     rule_message := T "outlookEmailRequired" |} ] |};
           {| item_name := "outlook_folder";
              item_rules :=
                [ {| rule_type := None;
                     rule_required := Some (syncEnabled p);
                     rule_message := T "outlookFolderRequired" |} ] |} ]
       else [];
     action_button := None |}.

End OutlookMailSyncForm.

(** ** The widgets side by side *)

Inductive widget := Outlook | OneDrive | OneDriveBare.

(** The [sync_type] a widget sends and compares [syncType] with. *)
Definition tag (wd : widget) : string :=
  match wd with
  | Outlook => "outlook"
  | OneDrive | OneDriveBare => "onedrive"
  end.

(** The toggle's field under [parser_config]. *)
Definition enabled_key (wd : widget) : string :=
  match wd with
  | Outlook => "outlook_sync_enabled"
  | OneDrive | OneDriveBare => "onedrive_sync_enabled"
  end.

Definition email_key (wd : widget) : string :=
  match wd with
  | Outlook => "outlook_email"
  | OneDrive | OneDriveBare => "onedrive_email"
  end.

Definition status_url (wd : widget) (kbId : kb_id) : string :=
  match wd with
  | Outlook | OneDrive => "/v1/api/kb/sync_status?kb_id=" ++ kb_text kbId
  | OneDriveBare => "/api/kb/sync_status?kb_id=" ++ kb_text kbId
  end.

Definition trigger_url (wd : widget) : string :=
  match wd with
  | Outlook | OneDrive => "/v1/api/kb/trigger_sync"
  | OneDriveBare => "/api/kb/trigger_sync"
  end.

Definition cancel_url (wd : widget) : string :=
  match wd with
  | Outlook | OneDrive => "/v1/api/kb/cancel_sync"
  | OneDriveBare => "/api/kb/cancel_sync"
  end.

Definition checkSyncStatus (wd : widget) : kb_id -> action unit :=
  match wd with
  | Outlook => OutlookMailSync.checkSyncStatus
  | OneDrive => OneDriveSync.checkSyncStatus
  | OneDriveBare => OneDriveSyncBare.checkSyncStatus
  end.

Definition triggerSync (wd : widget) (kbId : kb_id) (email folder : jsval)
  : action unit :=
  match wd with
  | Outlook => OutlookMailSync.triggerSync kbId email folder
  | OneDrive => OneDriveSync.triggerSync kbId email folder
  | OneDriveBare => OneDriveSyncBare.triggerSync kbId
  end.

Definition cancelSync (wd : widget) : kb_id -> action unit :=
  match wd with
  | Outlook => OutlookMailSync.cancelSync
  | OneDrive => OneDriveSync.cancelSync
  | OneDriveBare => OneDriveSyncBare.cancelSync
  end.

Definition pollingEffect (wd : widget)
  : env -> kb_id -> world -> option nat * world :=
  match wd with
  | Outlook => OutlookMailSync.pollingEffect
  | OneDrive => OneDriveSync.pollingEffect
  | OneDriveBare => OneDriveSyncBare.pollingEffect
  end.

Definition handleSyncChange (wd : widget) : props -> bool -> action unit :=
  match wd with
  | Outlook => OutlookMailSync.handleSyncChange
  | OneDrive => OneDriveSync.handleSyncChange
  | OneDriveBare => OneDriveSyncBare.handleSyncChange
  end.

Definition onClickSyncNow (wd : widget) : props -> action unit :=
  match wd with
  | Outlook => OutlookMailSync.onClickSyncNow
  | OneDrive => OneDriveSync.onClickSyncNow
  | OneDriveBare => OneDriveSyncBare.onClickSyncNow
  end.

Definition render (wd : widget) : props -> view :=
  match wd with
  | Outlook => OutlookMailSync.render
  | OneDrive => OneDriveSync.render
  | OneDriveBare => OneDriveSyncBare.render
  end.

(** The function a timer calls when it fires. *)
Definition run_callback (cb : callback) : action unit :=
  match cb with
  | OutlookCheck kbId => OutlookMailSync.checkSyncStatus kbId
  | OneDriveCheck kbId => OneDriveSync.checkSyncStatus kbId
  | OneDriveBareCheck kbId => OneDriveSyncBare.checkSyncStatus kbId
  | OneDriveAuto kbId email => OneDriveSync.autoTrigger kbId email
  | OneDriveBareAuto kbId => OneDriveSyncBare.triggerSync kbId
  end.

(** What is left of that function after its [await], run when the
    answer arrives. *)
Definition run_reply (cb : callback) : outcome -> action unit :=
  match cb with
  | OutlookCheck _ => OutlookMailSync.checkSyncStatus_settled
  | OneDriveCheck _ => OneDriveSync.checkSyncStatus_settled
  | OneDriveBareCheck _ => OneDriveSyncBare.checkSyncStatus_settled
  | OneDriveAuto _ _ => OneDriveSync.triggerSync_settled
  | OneDriveBareAuto _ => OneDriveSyncBare.triggerSync_settled
  end.

(** A timer calls its function and does not wait for it. *)
Definition call (E : env) (cb : callback) (w : world) : world :=
  start E cb (run_callback cb) w.

Definition check_callback (wd : widget) : kb_id -> callback :=
  match wd with
  | Outlook => OutlookCheck
  | OneDrive => OneDriveCheck
  | OneDriveBare => OneDriveBareCheck
  end.

Definition auto_callback (wd : widget) (kbId : kb_id) (email : jsval)
  : option callback :=
  match wd with
  | Outlook => None
  | OneDrive => Some (OneDriveAuto kbId email)
  | OneDriveBare => Some (OneDriveBareAuto kbId)
  end.

(** The props of the render that follows world [w]. *)
Definition props_of (wd : widget) (kbId : kb_id) (w : world) : props :=
  {| kbId := kbId; cells := st w;
     syncEnabled := field_value (form w) (enabled_key wd) |}.

(** The states of section 4.4, read off what is rendered. *)
Inductive rstate := Disabled | EnabledIdle | EnabledSyncing.

Definition rendered (v : view) : rstate :=
  match action_button v with
  | None => Disabled
  | Some SyncNowButton => EnabledIdle
  | Some CancelButton => EnabledSyncing
  end.

(** The [Switch] inside its [Form.Item]: the item writes the new value
    to the form store, then calls the [onChange] the widget passed,
    which still closes over the props of the previous render. *)
Definition switchChange (E : env) (wd : widget) (p : props) (checked : bool)
  (w : world) : world :=
  exec E (handleSyncChange wd p checked)
    (set_form (<[enabled_key wd := JBool checked]> (form w)) w).

(** ** Timers and the passage of time *)

Definition set_now (n : nat) (w : world) : world :=
  {| form := form w; st := st w; timers := timers w;
     inflight := inflight w;
     next_id := next_id w; now := n; events := events w |}.

Definition rearm_one (id : nat) (t : timer) : list timer :=
  if Nat.eqb (t_id t) id then
    match t_period t with
    | Some p => [ {| t_id := t_id t; t_cb := t_cb t; t_due := t_due t + p;
                     t_period := Some p |} ]
    | None => []
    end
  else [t].

(** A fired interval is due again one period later; a fired timeout
    is gone. *)
Definition rearm (id : nat) (w : world) : world :=
  set_timers (flat_map (rearm_one id) (timers w)) w.

Definition fire (E : env) (t : timer) (w : world) : world :=
  if existsb (fun t' => Nat.eqb (t_id t') (t_id t)) (timers w)
  then call E (t_cb t) (rearm (t_id t) w)
  else w.

(** An answer arrives: the call that waited for it goes on. *)
Definition settle (E : env) (p : pending) (w : world) : world :=
  exec E (run_reply (p_cb p) (p_answer p)) w.

(** The answers due at the present millisecond arrive, in the order in
    which their requests were sent. *)
Definition deliver (E : env) (w : world) : world :=
  fold_left (fun w' p => settle E p w')
    (List.filter (fun p => Nat.eqb (p_due p) (now w)) (inflight w))
    (set_inflight
       (List.filter (fun p => negb (Nat.eqb (p_due p) (now w))) (inflight w))
       w).

(** One millisecond passes: the answers due then arrive, then the timers
    due then fire in creation order. *)
Definition tick (E : env) (w : world) : world :=
  let w1 := deliver E (set_now (S (now w)) w) in
  fold_left (fun w' t => fire E t w')
    (List.filter (fun t => Nat.eqb (t_due t) (now w1)) (timers w1)) w1.

Fixpoint advance (E : env) (ms : nat) (w : world) : world :=
  match ms with
  | O => w
  | S n => advance E n (tick E w)
  end.

(** ** Life cycle of the polling effect ([useEffect(..., [kbId])]) *)

Definition mount (E : env) (wd : widget) (kbId : kb_id) (w : world)
  : option nat * world :=
  pollingEffect wd E kbId w.

(** The effect's cleanup: [clearInterval(intervalId)] when there is one. *)
Definition cleanup (E : env) (c : option nat) (w : world) : world :=
  match c with
  | Some intervalId => exec E (act (ClearInterval intervalId)) w
  | None => w
  end.

Definition unmount (E : env) (c : option nat) (w : world) : world :=
  cleanup E c w.

(** A render with a changed [kbId] runs the cleanup of the previous
    effect and then the effect again. *)
Definition change_kbId (E : env) (wd : widget) (old new : kb_id)
  (c : option nat) (w : world) : option nat * world :=
  if decide (old = new) then (c, w)
  else mount E wd new (cleanup E c w).

Definition fresh (f : gmap string jsval) : world :=
  {| form := f; st := {| syncing := false; syncType := JNull |};
     timers := []; inflight := []; next_id := 0; now := 0; events := [] |}.

(** ** Reading traces *)

Fixpoint effects {A} (E : env) (p : action A) (w : world) : list event :=
  match p with
  | Ret _ => []
  | Vis e k => e :: effects E (k (fst (handle E e w))) (snd (handle E e w))
  end.

Definition is_request (e : event) : bool :=
  match e with Request _ _ => true | _ => false end.

Definition is_notification (e : event) : bool :=
  match e with MessageSuccess _ | MessageError _ => true | _ => false end.

Definition is_console (e : event) : bool :=
  match e with ConsoleLog _ | ConsoleError _ => true | _ => false end.

Definition is_timer_event (e : event) : bool :=
  match e with SetTimeout _ _ | SetInterval _ _ => true | _ => false end.

Definition requests (l : list event) : list event := List.filter is_request l.

Definition notifications (l : list event) : list event :=
  List.filter is_notification l.

Definition is_request_to (url : string) (e : event) : bool :=
  match e with Request u _ => String.eqb u url | _ => false end.

Definition count_requests_to (url : string) (l : list event) : nat :=
  length (List.filter (is_request_to url) l).

(** The JSON body of a trigger request, per widget. *)
Definition trigger_body (wd : widget) (kbId : kb_id) (email folder : jsval)
  : list (string * jsval) :=
  match wd with
  | Outlook => [("kb_id", kb_val kbId); ("sync_type", JStr "outlook");
                ("email", email); ("folder_name", folder)]
  | OneDrive => [("kb_id", kb_val kbId); ("sync_type", JStr "onedrive");
                 ("email", email); ("folder_path", folder)]
  | OneDriveBare => [("kb_id", kb_val kbId); ("sync_type", JStr "onedrive")]
  end.

(** The body of the trigger request a Sync Now press sends when the form
    store holds [f]: two of the widgets read two fields, the third reads
    none. *)
Definition sync_now_body (wd : widget) (kbId : kb_id) (f : gmap string jsval)
  : list (string * jsval) :=
  match wd with
  | Outlook => [("kb_id", kb_val kbId); ("sync_type", JStr "outlook");
                ("email", field_value f "outlook_email");
                ("folder_name", field_value f "outlook_folder")]
  | OneDrive => [("kb_id", kb_val kbId); ("sync_type", JStr "onedrive");
                 ("email", field_value f "onedrive_email");
                 ("folder_path", field_value f "onedrive_folder_path")]
  | OneDriveBare => [("kb_id", kb_val kbId); ("sync_type", JStr "onedrive")]
  end.

Definition trigger_request (wd : widget) (kbId : kb_id) (email folder : jsval)
  : event :=
  Request (trigger_url wd)
    (Some {| method := "POST"; data := trigger_body wd kbId email folder |}).

Definition cancel_request (wd : widget) (kbId : kb_id) : event :=
  Request (cancel_url wd)
    (Some {| method := "POST"; data := [("kb_id", kb_val kbId)] |}).

Definition status_request (wd : widget) (kbId : kb_id) : event :=
  Request (status_url wd kbId) None.

Definition has_key (k : string) (body : list (string * jsval)) : bool :=
  existsb (fun kv => String.eqb (fst kv) k) body.

Definition folder_key (wd : widget) : string :=
  match wd with
  | Outlook => "outlook_folder"
  | OneDrive | OneDriveBare => "onedrive_folder_path"
  end.

Definition body_of (e : event) : list (string * jsval) :=
  match e with
  | Request _ (Some opts) => data opts
  | _ => []
  end.

(** A necessary condition of every e-mail pattern: an at sign. *)
Definition contains_at (s : string) : bool :=
  existsb (fun c => Ascii.eqb c "@"%char) (list_ascii_of_string s).

Definition trigger_opts (wd : widget) (kbId : kb_id) (email folder : jsval)
  : option reqopts :=
  Some {| method := "POST"; data := trigger_body wd kbId email folder |}.

(** What the backend answered to the trigger request issued from [w]. *)
Definition trigger_answer (wd : widget) (kbId : kb_id) (email folder : jsval)
  (E : env) (w : world) : outcome :=
  respond E
    (match wd with
     | OneDrive => (trace w ++ [ConsoleLog "triggerSync函数被调用，参数:"])%list
     | _ => trace w
     end)
    (trigger_url wd) (trigger_opts wd kbId email folder).

(** ** Sample environments and worlds used by the closed examples *)

(** Every request gets the answer [o], in the millisecond after the one
    in which it was sent. *)
Definition answering (o : outcome) (yes : bool) : env :=
  {| respond := fun _ _ _ => o; confirm := fun _ _ => yes;
     latency := fun _ _ _ => 0 |}.

(** The same backend, [ms] milliseconds slower. *)
Definition slow (ms : nat) (E : env) : env :=
  {| respond := respond E; confirm := confirm E;
     latency := fun _ _ _ => ms |}.

Definition accepted : outcome :=
  Resolved {| res_data := JBool true; res_message := JUndefined |}.

Definition refused : outcome :=
  Resolved {| res_data := JBool false; res_message := JStr "busy" |}.

Definition not_found : outcome :=
  Rejected {| response_status := JNum 404 |}.

Definition outlook_running : jsval :=
  JObj [("is_syncing", JBool true); ("sync_type", JStr "outlook")].

Definition reporting (payload : jsval) (yes : bool) : env :=
  answering (Resolved {| res_data := payload; res_message := JUndefined |}) yes.

Definition outlook_form (email folder : string) : gmap string jsval :=
  <["outlook_sync_enabled" := JBool true]>
    (<["outlook_email" := JStr email]>
       (<["outlook_folder" := JStr folder]> ∅)).

Definition onedrive_form (enabled : bool) (email : string)
  : gmap string jsval :=
  <["onedrive_sync_enabled" := JBool enabled]>
    (<["onedrive_email" := JStr email]> ∅).

Definition both_form : gmap string jsval :=
  <["outlook_sync_enabled" := JBool true]>
    (<["onedrive_sync_enabled" := JBool true]> ∅).

Definition with_cells (c : hooks) (w : world) : world := set_st c w.

Definition busy_with (provider : string) : hooks :=
  {| syncing := true; syncType := JStr provider |}.

(** The Outlook widget mounted on [?id=kb1] while the backend reports
    an Outlook sync, and the same instance after the answer to its first
    status request has arrived and the id has then left the URL. *)
Definition outlook_mounted : option nat * world :=
  mount (reporting outlook_running true) Outlook (Some "kb1") (fresh both_form).

Definition outlook_orphaned : option nat * world :=
  change_kbId (reporting outlook_running true) Outlook (Some "kb1") None
    (fst outlook_mounted)
    (advance (reporting outlook_running true) 1 (snd outlook_mounted)).

Definition confirm_prompt : event := WindowConfirm (T "confirmCancelSync").

Definition status_answer (wd : widget) (kbId : kb_id) (E : env) (w : world)
  : outcome :=
  respond E (trace w) (status_url wd kbId) None.

(** The interval the polling effect registers and the timeout the
    auto-trigger registers. *)
Definition poll_timer (wd : widget) (kbId : kb_id) (id due : nat) : timer :=
  {| t_id := id; t_cb := check_callback wd kbId; t_due := due;
     t_period := Some 5000 |}.

Definition auto_timer (cb : callback) (id due : nat) : timer :=
  {| t_id := id; t_cb := cb; t_due := due; t_period := None |}.

(** Trigger requests sent so far. *)
Definition triggers (wd : widget) (w : world) : nat :=
  count_requests_to (trigger_url wd) (trace w).

(** The instance after its mount, after an unmount [t] ms later, and
    after a render [t] ms later in which the id has become [new]. *)
Definition mounted (E : env) (wd : widget) (kbId : kb_id) (w0 : world)
  : world :=
  snd (mount E wd kbId w0).

Definition unmounted (E : env) (wd : widget) (kbId : kb_id) (w0 : world)
  (t : nat) : world :=
  unmount E (fst (mount E wd kbId w0)) (advance E t (mounted E wd kbId w0)).

Definition id_changed (E : env) (wd : widget) (kbId new : kb_id) (w0 : world)
  (t : nat) : option nat * world :=
  change_kbId E wd kbId new (fst (mount E wd kbId w0))
    (advance E t (mounted E wd kbId w0)).

(** The OneDrive widget opened without an id: the form holds an e-mail,
    the toggle is off; then the toggle is switched on. *)
Definition onedrive_no_id : world := fresh (onedrive_form false "a@b.com").

Definition onedrive_no_id_enabled : world :=
  switchChange (answering accepted true) OneDrive
    (props_of OneDrive None onedrive_no_id) true onedrive_no_id.

(** Neither a timer nor a trigger request. *)
Definition no_auto_trigger (e : event) : bool :=
  negb (is_timer_event e || is_request_to (trigger_url Outlook) e).

(** The fields of an object; nothing for [undefined], [null] and the
    primitives. *)
Definition fields_of (v : jsval) : list (string * jsval) :=
  match v with
  | JObj fs => fs
  | _ => []
  end.

(** Whether the cells say that this widget's own provider is syncing:
    [syncing && syncType === tag]. *)
Definition own_sync (wd : widget) (c : hooks) : bool :=
  syncing c && is_str (syncType c) (tag wd).

(** A OneDrive widget that is polling for [kb1]; its toggle is off and
    the form holds an e-mail. *)
Definition onedrive_polling : world :=
  mounted (answering accepted true) OneDrive (Some "kb1")
    (fresh (onedrive_form false "a@b.com")).

(** * Roles: the team page, the tenant table and the role hooks *)

(** [IRole], with the fields the code below reads. *)
Record IRole := {
  r_id : string;
  r_name : string;
  r_description : option string;
  r_tenant_id : string
}.

(** What [getUserRoles] gives: a rejection (or a response that cannot
    be read), or the value of [response.data?.data?.roles]. *)
Inductive roles_outcome :=
| RolesRejected
| RolesResolved (roles : option (list IRole)).

(** [response.data?.data?.roles || []] *)
Definition roles_or_empty (roles : option (list IRole)) : list IRole :=
  default [] roles.

(** The entry a fetch loop stores for one answer. *)
Definition roles_of (o : roles_outcome) : list IRole :=
  match o with
  | RolesRejected => []
  | RolesResolved roles => roles_or_empty roles
  end.

(** ** UserTable *)

Module UserTable.

Record ITenantUser := { user_id : string; nickname : string }.

Record state := {
  userRolesMap : gmap string (list IRole);
  roleActionInProgress : bool;
  bindRoleModalVisible : bool;
  currentUser : option ITenantUser;
  currentUserId : option string
}.

Inductive call :=
| GetUserRoles (userId : string)
| PostAddUserRole (roleId userId : string)
| PostRemoveUserRole (roleId userId : string).

(** The [message.*] calls; console output is not recorded. *)
Inductive notice :=
| Success (key : string)
| Error (key : string) (detail : option jsval).

(** [post(...)]: a rejection (or a response without [data]), or
    [response.data] with its [code] and [message]. *)
Inductive post_outcome :=
| PostRejected
| PostResolved (code message : jsval).

Definition set_map (m : gmap string (list IRole)) (s : state) : state :=
  {| userRolesMap := m; roleActionInProgress := roleActionInProgress s;
     bindRoleModalVisible := bindRoleModalVisible s;
     currentUser := currentUser s; currentUserId := currentUserId s |}.

Definition set_progress (b : bool) (s : state) : state :=
  {| userRolesMap := userRolesMap s; roleActionInProgress := b;
     bindRoleModalVisible := bindRoleModalVisible s;
     currentUser := currentUser s; currentUserId := currentUserId s |}.

(** [userRolesMap[userId] || []] *)
Definition bound_roles (m : gmap string (list IRole)) (userId : string)
  : list IRole :=
  default [] (m !! userId).

(** [(...).some((ur) => ur.id === role.id)] *)
Definition is_bound (bound : list IRole) (role : IRole) : bool :=
  existsb (fun ur => String.eqb (r_id ur) (r_id role)) bound.

(** The roles offered in the bind-role modal:
    [roles.filter((role) => !bound.some((ur) => ur.id === role.id))]. *)
Definition available_roles (roles : list IRole)
  (m : gmap string (list IRole)) (userId : string) : list IRole :=
  List.filter (fun role => negb (is_bound (bound_roles m userId) role)) roles.

(** The [allRolesAssigned] line is shown. *)
Definition all_roles_assigned (roles : list IRole)
  (m : gmap string (list IRole)) (userId : string) : bool :=
  Nat.eqb (length (available_roles roles m userId)) 0.

(** The loop of the effect that fetches every user's roles; [n] counts
    the calls made so far. A failed call leaves the empty list for its
    user and shows nothing. *)
Fixpoint fetchUserRoles (getUserRoles : nat -> string -> roles_outcome)
  (n : nat) (data : list ITenantUser) (rolesMap : gmap string (list IRole))
  : gmap string (list IRole) * list call * list notice :=
  match data with
  | [] => (rolesMap, [], [])
  | user :: rest =>
      let answer := getUserRoles n (user_id user) in
      let r := fetchUserRoles getUserRoles (S n) rest
                 (<[user_id user := roles_of answer]> rolesMap) in
      (fst (fst r), GetUserRoles (user_id user) :: snd (fst r), snd r)
  end.

(** The effect on [data]: [if (data && data.length > 0) ...], ending in
    [setUserRolesMap(rolesMap)]. *)
Definition fetchUserRolesEffect (getUserRoles : nat -> string -> roles_outcome)
  (data : option (list ITenantUser)) (s : state)
  : state * list call * list notice :=
  match data with
  | None | Some [] => (s, [], [])
  | Some users =>
      let r := fetchUserRoles getUserRoles 0 users ∅ in
      (set_map (fst (fst r)) s, snd (fst r), snd r)
  end.

Inductive role_change := AddRole | RemoveRole.

Definition post_call (c : role_change) (roleId userId : string) : call :=
  match c with
  | AddRole => PostAddUserRole roleId userId
  | RemoveRole => PostRemoveUserRole roleId userId
  end.

Definition failed_key (c : role_change) : string :=
  match c with
  | AddRole => "setting.roleAddFailed"
  | RemoveRole => "setting.roleRemoveFailed"
  end.

Definition done_key (c : role_change) : string :=
  match c with
  | AddRole => "setting.roleAddedSuccess"
  | RemoveRole => "setting.roleRemovedSuccess"
  end.

(** The common body of [handleAddRole] and [handleRemoveRole]. *)
Definition changeRole (c : role_change) (posted : post_outcome)
  (refetched : roles_outcome) (userId roleId : string) (s : state)
  : state * list call * list notice :=
  if String.eqb userId "" || String.eqb roleId "" then
    (s, [], [Error "setting.missingRequiredParams" None])
  else
    let s1 := set_progress true s in
    let r :=
      match posted with
      | PostRejected =>
          (s1, [post_call c roleId userId], [Error (failed_key c) None])
      | PostResolved code message =>
          if is_num code 0 then
            match refetched with
            | RolesRejected =>
                (s1, [post_call c roleId userId; GetUserRoles userId],
                 [Error (failed_key c) None])
            | RolesResolved roles =>
                (set_map (<[userId := roles_or_empty roles]> (userRolesMap s1))
                   s1,
                 [post_call c roleId userId; GetUserRoles userId],
                 [Success (done_key c)])
            end
          else
            (s1, [post_call c roleId userId],
             [Error (failed_key c) (Some message)])
      end in
    (set_progress false (fst (fst r)), snd (fst r), snd r).

Definition handleAddRole (posted : post_outcome) (refetched : roles_outcome)
  (userId : string) (role : IRole) (s : state)
  : state * list call * list notice :=
  changeRole AddRole posted refetched userId (r_id role) s.

Definition handleRemoveRole (posted : post_outcome) (refetched : roles_outcome)
  (userId roleId : string) (s : state) : state * list call * list notice :=
  changeRole RemoveRole posted refetched userId roleId s.

End UserTable.

(** ** TenantTable *)

Module TenantTable.

Record ITenant := { tenant_id : string; role : string }.

(** [userAllRoles.filter((role) => role.tenant_id === tenant.tenant_id)] *)
Definition roles_in (tenantId : string) (userAllRoles : list IRole)
  : list IRole :=
  List.filter (fun role => String.eqb (r_tenant_id role) tenantId)
    userAllRoles.

(** The loop of [fetchUserRolesForTenants]; each round calls
    [getUserRoles()] again. Returns the map and the number of calls. *)
Fixpoint fetchUserRolesForTenants (getUserRoles : nat -> roles_outcome)
  (n : nat) (data : list ITenant) (rolesMap : gmap string (list IRole))
  : gmap string (list IRole) * nat :=
  match data with
  | [] => (rolesMap, n)
  | tenant :: rest =>
      fetchUserRolesForTenants getUserRoles (S n) rest
        (<[tenant_id tenant :=
             roles_in (tenant_id tenant) (roles_of (getUserRoles n))]>
           rolesMap)
  end.

(** The effect: [if (!data || data.length === 0) return], else the loop
    and [setUserRoles(rolesMap)]. *)
Definition fetchEffect (getUserRoles : nat -> roles_outcome)
  (data : option (list ITenant)) (userRoles : gmap string (list IRole))
  : gmap string (list IRole) * nat :=
  match data with
  | None | Some [] => (userRoles, 0)
  | Some tenants => fetchUserRolesForTenants getUserRoles 0 tenants ∅
  end.

End TenantTable.

(** ** Sample data for the role pages *)

Definition alice : UserTable.ITenantUser :=
  {| UserTable.user_id := "u1"; UserTable.nickname := "Alice" |}.

Definition bob : UserTable.ITenantUser :=
  {| UserTable.user_id := "u2"; UserTable.nickname := "Bob" |}.

Definition editor : IRole :=
  {| r_id := "r1"; r_name := "editor"; r_description := None;
     r_tenant_id := "t1" |}.

Definition auditor : IRole :=
  {| r_id := "r2"; r_name := "auditor"; r_description := Some "reads";
     r_tenant_id := "t2" |}.

(** The first call fails, every later one returns both roles. *)
Definition first_call_fails (n : nat) (userId : string) : roles_outcome :=
  match n with
  | O => RolesRejected
  | S _ => RolesResolved (Some [editor; auditor])
  end.

Definition empty_table : UserTable.state :=
  {| UserTable.userRolesMap := ∅; UserTable.roleActionInProgress := false;
     UserTable.bindRoleModalVisible := false;
     UserTable.currentUser := None; UserTable.currentUserId := None |}.

Definition home : TenantTable.ITenant :=
  {| TenantTable.tenant_id := "t1"; TenantTable.role := "owner" |}.

Definition guest : TenantTable.ITenant :=
  {| TenantTable.tenant_id := "t2"; TenantTable.role := "normal" |}.

(** Every call returns both roles. *)
Definition both_roles (n : nat) : roles_outcome :=
  RolesResolved (Some [editor; auditor]).


(** ** The role service and its hooks

    Only [message.*] notifications are recorded here; the console lines
    of these functions are left out. *)

Module RoleService.

(** [ResponseType<T>] *)
Record ResponseType (A : Type) := {
  rt_code : Z;
  rt_message : string;
  rt_data : A;
  rt_status : Z
}.

Arguments rt_code {A} _.
Arguments rt_message {A} _.
Arguments rt_data {A} _.
Arguments rt_status {A} _.

(** [request.get(url)]: a rejection, or a response. [None] stands for a
    falsy [response] or [response.data]; otherwise [responseData] is
    [response.data], its payload being the value of
    [responseData.data?.roles]. *)
Inductive get_outcome :=
| GetRejected
| GetResolved (responseData : option (ResponseType (option (list IRole)))).

(** A request whose answer is not read: it resolves or rejects. *)
Inductive write_outcome := WriteRejected | WriteResolved.

(** [request.get('/v1/role/detail/' + roleId)], read as
    [response.data || null]; a response that has no fields counts as a
    rejection, as reading its [data] throws. *)
Inductive detail_outcome :=
| DetailRejected
| DetailResolved (data : option IRole).

Definition list_url (tenantId : option string) : string :=
  if missing tenantId then "/v1/role/list"
  else "/v1/role/list?tenant_id=" ++ kb_text tenantId.

Definition fetchRoles (get : string -> get_outcome) (tenantId : option string)
  : ResponseType (list IRole) :=
  match get (list_url tenantId) with
  | GetResolved (Some responseData) =>
      {| rt_code := rt_code responseData;
         rt_message := rt_message responseData;
         rt_data := roles_or_empty (rt_data responseData);
         rt_status := rt_status responseData |}
  | GetResolved None =>
      {| rt_code := 0; rt_message := "成功"; rt_data := []; rt_status := 200 |}
  | GetRejected =>
      {| rt_code := 500; rt_message := "获取角色列表失败"; rt_data := [];
         rt_status := 500 |}
  end.

(** [useRoleList] *)
Record list_state := { loading : bool; roles : list IRole }.

Definition set_loading (b : bool) (s : list_state) : list_state :=
  {| loading := b; roles := roles s |}.

(** [fetchRoleList]. What [fetchRoles] returns always has an array as
    its [data], so of the branches on [result.data] only
    [setRoles(result.data)] can be taken. *)
Definition fetchRoleList (get : string -> get_outcome)
  (tenant_id : option string) (s : list_state) : list_state :=
  let s1 := set_loading true s in
  let result := fetchRoles get tenant_id in
  set_loading false {| loading := loading s1; roles := rt_data result |}.

Inductive notice := Success (key : string).

(** The common body of [handleCreateRole], [handleUpdateRole] and
    [handleDeleteRole]. *)
Definition writeRole (done : string) (written : write_outcome)
  (get : string -> get_outcome) (tenant_id : option string) (s : list_state)
  : bool * list_state * list notice :=
  let s1 := set_loading true s in
  match written with
  | WriteResolved =>
      (true, set_loading false (fetchRoleList get tenant_id s1),
       [Success done])
  | WriteRejected => (false, set_loading false s1, [])
  end.

Definition handleCreateRole := writeRole "message.created".
Definition handleUpdateRole := writeRole "message.updated".
Definition handleDeleteRole := writeRole "message.deleted".

(** [handleModalOk] of the role page: [validated] is whether
    [form.validateFields()] resolved. Returns the modal's visibility. *)
Definition handleModalOk (validated : bool) (written : write_outcome)
  (get : string -> get_outcome) (tenant_id : option string)
  (isModalVisible : bool) (s : list_state)
  : bool * list_state * list notice :=
  if validated then
    let r := handleCreateRole written get tenant_id s in
    (if fst (fst r) then false else isModalVisible, snd (fst r), snd r)
  else (isModalVisible, s, []).

(** [useRoleDetail] *)
Record detail_state := { d_loading : bool; role : option IRole }.

Definition set_d_loading (b : bool) (s : detail_state) : detail_state :=
  {| d_loading := b; role := role s |}.

Definition fetchRoleInfo (roleId : option string) (got : detail_outcome)
  (s : detail_state) : detail_state :=
  if missing roleId then s
  else
    let s1 := set_d_loading true s in
    match got with
    | DetailResolved data =>
        set_d_loading false {| d_loading := d_loading s1; role := data |}
    | DetailRejected => set_d_loading false s1
    end.

(** The common body of [handleAddUser], [handleRemoveUser] and
    [handleUpdatePermissions]. *)
Definition writeDetail (roleId : option string) (written : write_outcome)
  (got : detail_outcome) (s : detail_state)
  : bool * detail_state * list notice :=
  if missing roleId then (false, s, [])
  else
    let s1 := set_d_loading true s in
    match written with
    | WriteResolved =>
        (true, set_d_loading false (fetchRoleInfo roleId got s1),
         [Success "message.updated"])
    | WriteRejected => (false, set_d_loading false s1, [])
    end.

Definition handleAddUser := writeDetail.
Definition handleRemoveUser := writeDetail.
Definition handleUpdatePermissions := writeDetail.

End RoleService.

(** ** The role list and the permission radio of the dataset's general form *)

Module GeneralForm.

(** The component's [roles] and [loading] cells and the two form values
    that the radio and the role select write. *)
Record view := {
  permission : string;
  roleId : string;
  roles : list IRole;
  loading : bool
}.

(** [getRoles], run once by the mount effect. *)
Definition getRoles (get : string -> RoleService.get_outcome) (v : view) : view :=
  let response := RoleService.fetchRoles get None in
  {| permission := permission v; roleId := roleId v;
     roles := roles_or_empty (Some (RoleService.rt_data response));
     loading := false |}.

Inductive change :=
| ChoosePermission (value : string)
| ChooseRole (id : string).

(** [form.watch('type') === 'role'] *)
Definition select_shown (v : view) : bool := String.eqb (permission v) "role".

(** The radio's [onValueChange], and the select's, which can fire only
    while the select is shown and not disabled. *)
Definition apply (v : view) (c : change) : view :=
  match c with
  | ChoosePermission value =>
      {| permission := value;
         roleId := if negb (String.eqb value "role") then "" else roleId v;
         roles := roles v; loading := loading v |}
  | ChooseRole id =>
      if select_shown v && negb (loading v) then
        {| permission := permission v; roleId := id;
           roles := roles v; loading := loading v |}
      else v
  end.

Definition run (v : view) (cs : list change) : view := fold_left apply cs v.

End GeneralForm.

Definition no_roles_backend (url : string) : RoleService.get_outcome :=
  RoleService.GetRejected.

Definition two_roles_backend (url : string) : RoleService.get_outcome :=
  RoleService.GetResolved
    (Some {| RoleService.rt_code := 0; RoleService.rt_message := "success";
             RoleService.rt_data := Some [editor; auditor];
             RoleService.rt_status := 200 |}).

Definition private_view : GeneralForm.view :=
  {| GeneralForm.permission := "me"; GeneralForm.roleId := "";
     GeneralForm.roles := []; GeneralForm.loading := false |}.

(** [w'] is [w] but for the cells, the calls that wait for an answer
    and events that are not requests. *)
Definition sent_nothing (w w' : world) : Prop :=
  timers w' = timers w /\ now w' = now w /\ next_id w' = next_id w /\
  form w' = form w /\ requests (trace w') = requests (trace w) /\
  forall url, count_requests_to url (trace w') = count_requests_to url (trace w).

(** A read of the form store. *)
Definition is_field_read (e : event) : bool :=
  match e with GetFieldValue _ | GetParserConfig => true | _ => false end.

(** The Outlook widget on a backend that takes ten milliseconds more to
    answer; the id leaves the URL five milliseconds after the mount. *)
Definition outlook_orphaned_early : world :=
  snd (id_changed (slow 10 (reporting outlook_running true)) Outlook
         (Some "kb1") None (fresh both_form) 5).

(** * Properties *)

Local Open Scope list_scope.

(** ** Running actions *)

Ltac unfold_settled :=
  unfold OutlookMailSync.checkSyncStatus_settled,
    OneDriveSync.checkSyncStatus_settled, OneDriveSync.triggerSync_settled,
    OneDriveSyncBare.checkSyncStatus_settled,
    OneDriveSyncBare.triggerSync_settled.

Ltac eval_action :=
  unfold mbind, mret, action_bind, action_ret, act; simpl;
  unfold_settled;
  unfold mbind, mret, action_bind, action_ret, act; simpl.

(** Case analysis on everything the code branches on. *)
Ltac crunch :=
  repeat (simpl;
          match goal with
          | |- context [match ?x with _ => _ end] => destruct x eqn:?
          end);
  simpl; try reflexivity.

Ltac unfold_ops :=
  unfold checkSyncStatus, triggerSync, cancelSync, handleSyncChange,
    onClickSyncNow, pollingEffect, run_callback,
    OutlookMailSync.checkSyncStatus, OutlookMailSync.triggerSync,
    OutlookMailSync.cancelSync, OutlookMailSync.handleSyncChange,
    OutlookMailSync.onClickSyncNow, OutlookMailSync.pollingEffect,
    OneDriveSync.checkSyncStatus, OneDriveSync.triggerSync,
    OneDriveSync.cancelSync, OneDriveSync.handleSyncChange,
    OneDriveSync.onClickSyncNow, OneDriveSync.pollingEffect,
    OneDriveSync.autoTrigger,
    OneDriveSyncBare.checkSyncStatus, OneDriveSyncBare.triggerSync,
    OneDriveSyncBare.cancelSync, OneDriveSyncBare.handleSyncChange,
    OneDriveSyncBare.onClickSyncNow, OneDriveSyncBare.pollingEffect,
    OutlookMailSync.checkSyncStatus_settled,
    OneDriveSync.checkSyncStatus_settled, OneDriveSync.triggerSync_settled,
    OneDriveSyncBare.checkSyncStatus_settled,
    OneDriveSyncBare.triggerSync_settled.

Lemma trace_log (e : event) (w : world) : trace (log e w) = trace w ++ [e].
Proof. reflexivity. Qed.

Lemma trace_exec {A} (E : env) (p : action A) (w : world) :
  trace (exec E p w) = trace w ++ effects E p w.
Proof.
  revert w. induction p as [a | e k IH]; intros w; unfold exec in *; simpl.
  - now rewrite app_nil_r.
  - rewrite IH. destruct e; simpl; unfold trace; simpl;
      now rewrite <- app_assoc.
Qed.

Lemma run_bind {A B} (E : env) (m : action A) (f : A -> action B) (w : world) :
  run E (bind m f) w = run E (f (fst (run E m w))) (snd (run E m w)).
Proof.
  revert w. induction m as [a | e k IH]; intros w; simpl; [reflexivity|].
  apply IH.
Qed.

Lemma effects_bind {A B} (E : env) (m : action A) (f : A -> action B)
  (w : world) :
  effects E (bind m f) w =
  effects E m w ++ effects E (f (fst (run E m w))) (snd (run E m w)).
Proof.
  revert w. induction m as [a | e k IH]; intros w; simpl; [reflexivity|].
  now rewrite IH.
Qed.

Lemma missing_None_or_empty (kbId : kb_id) :
  missing kbId = true <-> kbId = None \/ kbId = Some "".
Proof.
  destruct kbId as [s|]; simpl; split; auto.
  - intros H. apply String.eqb_eq in H. subst. auto.
  - intros [H|H]; [discriminate|]. injection H as ->. reflexivity.
Qed.

(** ** Absent knowledge-base id *)

Lemma missing_kbId_silent (wd : widget) (kbId : kb_id) (E : env) (w : world)
  (email folder : jsval) (op : action unit) :
  missing kbId = true ->
  op = checkSyncStatus wd kbId \/ op = triggerSync wd kbId email folder
    \/ op = cancelSync wd kbId ->
  forallb is_console (effects E op w) = true /\
  requests (effects E op w) = [] /\
  notifications (effects E op w) = [] /\
  st (exec E op w) = st w /\ form (exec E op w) = form w /\
  timers (exec E op w) = timers w.
Proof.
  intros H [-> | [-> | ->]]; destruct wd; unfold_ops; eval_action;
    rewrite ?H; simpl; repeat split; reflexivity.
Qed.

(** C7: with a null [kbId], the status check, the trigger and the cancel
    operation of every widget perform no request, show no notification
    and no prompt (each of their effects, if any, is a console line) and
    leave the state cells, the form and the timers as they were. *)
Theorem C7_null_kbId_is_silent_noop (wd : widget) (E : env) (w : world)
  (email folder : jsval) :
  (forallb is_console (effects E (checkSyncStatus wd None) w) = true /\
   requests (effects E (checkSyncStatus wd None) w) = [] /\
   notifications (effects E (checkSyncStatus wd None) w) = [] /\
   st (exec E (checkSyncStatus wd None) w) = st w) /\
  (forallb is_console (effects E (triggerSync wd None email folder) w) = true /\
   requests (effects E (triggerSync wd None email folder) w) = [] /\
   notifications (effects E (triggerSync wd None email folder) w) = [] /\
   st (exec E (triggerSync wd None email folder) w) = st w) /\
  (forallb is_console (effects E (cancelSync wd None) w) = true /\
   requests (effects E (cancelSync wd None) w) = [] /\
   notifications (effects E (cancelSync wd None) w) = [] /\
   st (exec E (cancelSync wd None) w) = st w).
Proof.
  repeat split; destruct wd; reflexivity.
Qed.

(** ** Cancel *)

Lemma cancelSync_effects (wd : widget) (kbId : kb_id) (E : env) (w : world) :
  missing kbId = false ->
  effects E (cancelSync wd kbId) w =
  cancel_request wd kbId ::
  match respond E (trace w) (cancel_url wd)
          (Some {| method := "POST"; data := [("kb_id", kb_val kbId)] |}) with
  | Resolved res =>
      if truthy (res_data res) then [MessageSuccess (T "syncCancelled")]
      else [MessageError (or_t (res_message res) "cancelFailed")]
  | Rejected _ =>
      [ConsoleError "Failed to cancel sync:"; MessageError (T "cancelFailed")]
  end.
Proof.
  intros H. destruct wd; unfold_ops; rewrite H; eval_action; crunch.
Qed.

Lemma cancelSync_frame (wd : widget) (kbId : kb_id) (E : env) (w : world) :
  st (exec E (cancelSync wd kbId) w) = st w /\
  form (exec E (cancelSync wd kbId) w) = form w /\
  timers (exec E (cancelSync wd kbId) w) = timers w.
Proof.
  unfold exec. destruct wd; unfold_ops; eval_action; crunch; auto.
Qed.

(** C5: a cancel call with [kbId] present issues its one request; a
    truthy [res.data] shows the [syncCancelled] notification, a falsy one
    or a rejection shows an error notification; in every case [syncing]
    and [syncType] keep their prior values. *)
Theorem C5_cancel_does_not_touch_cells (wd : widget) (kbId : kb_id) (E : env)
  (w : world) :
  missing kbId = false ->
  st (exec E (cancelSync wd kbId) w) = st w /\
  requests (effects E (cancelSync wd kbId) w) = [cancel_request wd kbId] /\
  notifications (effects E (cancelSync wd kbId) w) =
  match respond E (trace w) (cancel_url wd)
          (Some {| method := "POST"; data := [("kb_id", kb_val kbId)] |}) with
  | Resolved res =>
      if truthy (res_data res) then [MessageSuccess (T "syncCancelled")]
      else [MessageError (or_t (res_message res) "cancelFailed")]
  | Rejected _ => [MessageError (T "cancelFailed")]
  end.
Proof.
  intros H. split; [apply cancelSync_frame|].
  rewrite (cancelSync_effects wd kbId E w H).
  unfold requests, notifications, cancel_request. simpl.
  destruct (respond E _ _ _) as [res | err]; simpl;
    [destruct (truthy (res_data res))|]; simpl; auto.
Qed.

Lemma C5_witness :
  st (exec (answering accepted true) (cancelSync OneDrive (Some "kb1"))
        (with_cells (busy_with "onedrive") (fresh ∅)))
  = busy_with "onedrive" /\
  requests (effects (answering accepted true) (cancelSync OneDrive (Some "kb1"))
              (with_cells (busy_with "onedrive") (fresh ∅)))
  = [cancel_request OneDrive (Some "kb1")] /\
  notifications (effects (answering accepted true)
                   (cancelSync OneDrive (Some "kb1"))
                   (with_cells (busy_with "onedrive") (fresh ∅)))
  = [MessageSuccess (T "syncCancelled")].
Proof.
  exact (C5_cancel_does_not_touch_cells OneDrive (Some "kb1")
           (answering accepted true)
           (with_cells (busy_with "onedrive") (fresh ∅)) eq_refl).
Defined.

(** ** Trigger *)

Lemma triggerSync_requests (wd : widget) (kbId : kb_id) (email folder : jsval)
  (E : env) (w : world) :
  missing kbId = false ->
  requests (effects E (triggerSync wd kbId email folder) w) =
  [trigger_request wd kbId email folder].
Proof.
  intros H. destruct wd; unfold_ops; rewrite H; eval_action; crunch.
Qed.

Lemma triggerSync_frame (wd : widget) (kbId : kb_id) (email folder : jsval)
  (E : env) (w : world) :
  form (exec E (triggerSync wd kbId email folder) w) = form w /\
  timers (exec E (triggerSync wd kbId email folder) w) = timers w /\
  now (exec E (triggerSync wd kbId email folder) w) = now w.
Proof.
  unfold exec. destruct wd; unfold_ops; eval_action; crunch; auto.
Qed.

(** C3, as the code has it: a trigger call with [kbId] present issues
    exactly one POST to the trigger endpoint, whose body is
    [{kb_id, sync_type, email, folder_name}] in the Outlook widget,
    [{kb_id, sync_type, email, folder_path}] in the OneDrive widget with
    a folder field and [{kb_id, sync_type}] in the OneDrive widget
    without one. A truthy [res.data] shows the [syncStarted]
    notification and sets [syncing = true], [syncType = tag]; a falsy
    one shows an error with [res.message] when truthy and [syncFailed]
    otherwise, a rejection shows [syncFailed]; both leave the cells
    unchanged. *)
Theorem C3_trigger_contract (wd : widget) (kbId : kb_id) (email folder : jsval)
  (E : env) (w : world) :
  missing kbId = false ->
  requests (effects E (triggerSync wd kbId email folder) w) =
    [trigger_request wd kbId email folder] /\
  match trigger_answer wd kbId email folder E w with
  | Resolved res =>
      if truthy (res_data res) then
        notifications (effects E (triggerSync wd kbId email folder) w) =
          [MessageSuccess (T "syncStarted")] /\
        st (exec E (triggerSync wd kbId email folder) w) =
          {| syncing := true; syncType := JStr (tag wd) |}
      else
        notifications (effects E (triggerSync wd kbId email folder) w) =
          [MessageError (or_t (res_message res) "syncFailed")] /\
        st (exec E (triggerSync wd kbId email folder) w) = st w
  | Rejected _ =>
      notifications (effects E (triggerSync wd kbId email folder) w) =
        [MessageError (T "syncFailed")] /\
      st (exec E (triggerSync wd kbId email folder) w) = st w
  end.
Proof.
  intros H. split; [now apply triggerSync_requests|].
  unfold trigger_answer, trigger_opts, exec.
  destruct wd; unfold_ops; rewrite H; eval_action;
    unfold trace; simpl;
    destruct (respond E _ _ _) as [res | err]; simpl;
    [destruct (truthy (res_data res)) | | destruct (truthy (res_data res)) |
    | destruct (truthy (res_data res)) | ]; simpl; auto.
Qed.

Lemma C3_witness :
  requests (effects (answering accepted true)
              (triggerSync Outlook (Some "kb1") (JStr "a@b.com") (JStr "Inbox"))
              (fresh ∅)) =
    [trigger_request Outlook (Some "kb1") (JStr "a@b.com") (JStr "Inbox")] /\
  notifications (effects (answering accepted true)
                   (triggerSync Outlook (Some "kb1") (JStr "a@b.com")
                      (JStr "Inbox")) (fresh ∅)) =
    [MessageSuccess (T "syncStarted")] /\
  st (exec (answering accepted true)
        (triggerSync Outlook (Some "kb1") (JStr "a@b.com") (JStr "Inbox"))
        (fresh ∅)) = busy_with "outlook".
Proof.
  exact (C3_trigger_contract Outlook (Some "kb1") (JStr "a@b.com")
           (JStr "Inbox") (answering accepted true) (fresh ∅) eq_refl).
Defined.

(** A refusal that carries a message shows that message; the cells stay. *)
Example trigger_refused_shows_backend_message :
  notifications (effects (answering refused true)
                   (triggerSync OneDrive (Some "kb1") (JStr "a@b.com")
                      JUndefined) (fresh ∅)) =
    [MessageError (Raw (JStr "busy"))] /\
  st (exec (answering refused true)
        (triggerSync OneDrive (Some "kb1") (JStr "a@b.com") JUndefined)
        (fresh ∅)) = {| syncing := false; syncType := JNull |}.
Proof. split; reflexivity. Qed.

(** C3 as stated fails in the OneDrive widget without a folder field:
    with e-mail [a@b.com] in the form, its Sync Now sends the one POST
    with a body that has neither an [email] nor a folder key. *)
Lemma C3_counterexample_bare_body :
  requests (effects (answering accepted true)
              (onClickSyncNow OneDriveBare
                 (props_of OneDriveBare (Some "kb1")
                    (fresh (onedrive_form true "a@b.com"))))
              (fresh (onedrive_form true "a@b.com"))) =
    [Request "/api/kb/trigger_sync"
       (Some {| method := "POST";
                data := [("kb_id", JStr "kb1");
                         ("sync_type", JStr "onedrive")] |})] /\
  map (fun e => (has_key "email" (body_of e),
                 has_key "folder_path" (body_of e),
                 has_key "folder_name" (body_of e)))
    (requests (effects (answering accepted true)
                 (onClickSyncNow OneDriveBare
                    (props_of OneDriveBare (Some "kb1")
                       (fresh (onedrive_form true "a@b.com"))))
                 (fresh (onedrive_form true "a@b.com")))) =
    [(false, false, false)].
Proof. split; reflexivity. Qed.

(** ** Sync Now *)

Lemma onClickSyncNow_requests (wd : widget) (p : props) (E : env) (w : world) :
  missing (kbId p) = false ->
  requests (effects E (onClickSyncNow wd p) w) =
  [trigger_request wd (kbId p) (field_value (form w) (email_key wd))
     (field_value (form w) (folder_key wd))].
Proof.
  intros H.
  destruct wd;
    unfold onClickSyncNow, OutlookMailSync.onClickSyncNow,
      OneDriveSync.onClickSyncNow, OneDriveSyncBare.onClickSyncNow;
    eval_action;
    [ apply (triggerSync_requests Outlook)
    | apply (triggerSync_requests OneDrive)
    | apply (triggerSync_requests OneDriveBare) ]; exact H.
Qed.

Lemma onClickSyncNow_reads (wd : widget) (p : props) (E : env) (w : world) :
  List.filter is_field_read (effects E (onClickSyncNow wd p) w) =
  match wd with
  | Outlook => [GetFieldValue "outlook_email"; GetFieldValue "outlook_folder"]
  | OneDrive =>
      [GetFieldValue "onedrive_email"; GetFieldValue "onedrive_folder_path"]
  | OneDriveBare => []
  end.
Proof.
  destruct wd; do 3 (unfold_ops; eval_action); crunch.
Qed.

(** C1, as the code has it: in the Enabled-Idle rendered state, with
    [kbId] present, pressing Sync Now issues exactly one trigger
    request, whatever the form holds; the handler runs no validation.
    In the Outlook widget and in the OneDrive widget with a folder
    field the handler reads the e-mail and the folder field, and the
    request carries their values as they are; in the OneDrive widget
    without a folder field the handler reads no field, and the request
    carries [kb_id] and [sync_type] alone. *)
Theorem C1_sync_now_sends_form_values (wd : widget) (p : props) (E : env)
  (w : world) :
  rendered (render wd p) = EnabledIdle ->
  missing (kbId p) = false ->
  requests (effects E (onClickSyncNow wd p) w) =
    [Request (trigger_url wd)
       (Some {| method := "POST";
                data := sync_now_body wd (kbId p) (form w) |})] /\
  List.filter is_field_read (effects E (onClickSyncNow wd p) w) =
    match wd with
    | Outlook => [GetFieldValue "outlook_email"; GetFieldValue "outlook_folder"]
    | OneDrive =>
        [GetFieldValue "onedrive_email"; GetFieldValue "onedrive_folder_path"]
    | OneDriveBare => []
    end.
Proof.
  intros _ H. split; [|apply onClickSyncNow_reads].
  rewrite (onClickSyncNow_requests wd p E w H). now destruct wd.
Qed.

Lemma C1_witness :
  contains_at "not-an-email" = false /\
  requests (effects (answering accepted true)
              (onClickSyncNow OneDrive
                 (props_of OneDrive (Some "kb1")
                    (fresh (onedrive_form true "not-an-email"))))
              (fresh (onedrive_form true "not-an-email"))) =
  [Request "/v1/api/kb/trigger_sync"
     (Some {| method := "POST";
              data := [("kb_id", JStr "kb1"); ("sync_type", JStr "onedrive");
                       ("email", JStr "not-an-email");
                       ("folder_path", JUndefined)] |})].
Proof.
  split; [reflexivity|].
  exact (proj1 (C1_sync_now_sends_form_values OneDrive
           (props_of OneDrive (Some "kb1")
              (fresh (onedrive_form true "not-an-email")))
           (answering accepted true)
           (fresh (onedrive_form true "not-an-email")) eq_refl eq_refl)).
Defined.

(** C1 as stated fails: the Outlook widget in Enabled-Idle, e-mail field
    [not-an-email] (it has no at sign), Sync Now pressed: the trigger
    request is sent, with that e-mail in its body. *)
Lemma C1_counterexample_not_an_email :
  rendered (render Outlook
              (props_of Outlook (Some "kb1")
                 (fresh (outlook_form "not-an-email" "Inbox")))) = EnabledIdle /\
  contains_at "not-an-email" = false /\
  requests (effects (answering accepted true)
              (onClickSyncNow Outlook
                 (props_of Outlook (Some "kb1")
                    (fresh (outlook_form "not-an-email" "Inbox"))))
              (fresh (outlook_form "not-an-email" "Inbox"))) =
  [Request "/v1/api/kb/trigger_sync"
     (Some {| method := "POST";
              data := [("kb_id", JStr "kb1"); ("sync_type", JStr "outlook");
                       ("email", JStr "not-an-email");
                       ("folder_name", JStr "Inbox")] |})].
Proof. repeat split; reflexivity. Qed.

(** ** Status check *)

Lemma checkSyncStatus_requests (wd : widget) (kbId : kb_id) (E : env)
  (w : world) :
  missing kbId = false ->
  requests (effects E (checkSyncStatus wd kbId) w) = [status_request wd kbId] /\
  notifications (effects E (checkSyncStatus wd kbId) w) = [].
Proof.
  intros H. destruct wd; unfold_ops; rewrite H; eval_action; crunch; auto.
Qed.

Lemma checkSyncStatus_resolved (wd : widget) (kbId : kb_id) (E : env)
  (w : world) (res : response) :
  missing kbId = false ->
  status_answer wd kbId E w = Resolved res ->
  st (exec E (checkSyncStatus wd kbId) w) =
  if truthy (get (res_data res) "is_syncing")
  then {| syncing := true; syncType := get (res_data res) "sync_type" |}
  else {| syncing := false; syncType := JNull |}.
Proof.
  unfold status_answer, exec. intros H R.
  destruct wd; unfold_ops; rewrite H; eval_action;
    unfold status_url in R; rewrite R; simpl;
    destruct (truthy _); reflexivity.
Qed.

(** The Outlook widget on a rejected status request: a 404 resets the
    cells, anything else leaves them; nothing is shown to the user. *)
Lemma outlook_checkSyncStatus_rejected (kbId : kb_id) (E : env) (w : world)
  (error : failure) :
  missing kbId = false ->
  status_answer Outlook kbId E w = Rejected error ->
  notifications (effects E (checkSyncStatus Outlook kbId) w) = [] /\
  st (exec E (checkSyncStatus Outlook kbId) w) =
  if is_num (response_status error) 404
  then {| syncing := false; syncType := JNull |}
  else st w.
Proof.
  unfold status_answer, exec. intros H R.
  unfold_ops; rewrite H; eval_action.
  unfold status_url in R; rewrite R; simpl.
  destruct (is_num _ _); simpl; auto.
Qed.

(** Both OneDrive widgets on a rejected status request, 404 or not:
    a console line, the cells untouched. *)
Lemma onedrive_checkSyncStatus_rejected (wd : widget) (kbId : kb_id) (E : env)
  (w : world) (error : failure) :
  wd <> Outlook ->
  missing kbId = false ->
  status_answer wd kbId E w = Rejected error ->
  effects E (checkSyncStatus wd kbId) w =
    [status_request wd kbId; ConsoleError "Failed to check sync status:"] /\
  st (exec E (checkSyncStatus wd kbId) w) = st w.
Proof.
  unfold status_answer, exec. intros Hwd H R.
  destruct wd; [contradiction | |];
    unfold_ops; rewrite H; eval_action;
    unfold status_url in R; rewrite R; simpl; auto.
Qed.

(** C2 at its failing input: either OneDrive widget, [kbId = "kb1"],
    cells [{syncing: true, syncType: "onedrive"}], the status request
    rejected with status 404. The cells stay as they were; the Outlook
    widget on the same rejection resets them to [{false, null}]. *)
Theorem C2_onedrive_ignores_404 :
  st (exec (answering not_found true) (checkSyncStatus OneDrive (Some "kb1"))
        (with_cells (busy_with "onedrive") (fresh ∅)))
    = {| syncing := true; syncType := JStr "onedrive" |} /\
  st (exec (answering not_found true) (checkSyncStatus OneDriveBare (Some "kb1"))
        (with_cells (busy_with "onedrive") (fresh ∅)))
    = {| syncing := true; syncType := JStr "onedrive" |} /\
  st (exec (answering not_found true) (checkSyncStatus Outlook (Some "kb1"))
        (with_cells (busy_with "outlook") (fresh ∅)))
    = {| syncing := false; syncType := JNull |}.
Proof. repeat split; reflexivity. Qed.

(** ** One status answer, two widgets *)

(** C9: the status poll answers [{is_syncing: true, sync_type:
    "outlook"}]. The Outlook widget, its toggle on, then renders
    Enabled-Syncing (spinner, Cancel button); a sibling OneDrive widget
    that was in Enabled-Idle and received the same answer still renders
    Enabled-Idle (no spinner, Sync Now button). *)
Theorem C9_status_is_read_per_provider (sibling : widget) (kbId : kb_id)
  (E : env) (w_outlook w_sibling : world) (note1 note2 : jsval) :
  tag sibling = "onedrive" ->
  missing kbId = false ->
  status_answer Outlook kbId E w_outlook =
    Resolved {| res_data := outlook_running; res_message := note1 |} ->
  status_answer sibling kbId E w_sibling =
    Resolved {| res_data := outlook_running; res_message := note2 |} ->
  rendered (render Outlook (props_of Outlook kbId w_outlook)) <> Disabled ->
  rendered (render sibling (props_of sibling kbId w_sibling)) = EnabledIdle ->
  (rendered (render Outlook
     (props_of Outlook kbId (exec E (checkSyncStatus Outlook kbId) w_outlook)))
     = EnabledSyncing /\
   spinner (render Outlook
     (props_of Outlook kbId (exec E (checkSyncStatus Outlook kbId) w_outlook)))
     = true /\
   action_button (render Outlook
     (props_of Outlook kbId (exec E (checkSyncStatus Outlook kbId) w_outlook)))
     = Some CancelButton) /\
  (rendered (render sibling
     (props_of sibling kbId (exec E (checkSyncStatus sibling kbId) w_sibling)))
     = EnabledIdle /\
   spinner (render sibling
     (props_of sibling kbId (exec E (checkSyncStatus sibling kbId) w_sibling)))
     = false /\
   action_button (render sibling
     (props_of sibling kbId (exec E (checkSyncStatus sibling kbId) w_sibling)))
     = Some SyncNowButton).
Proof.
  intros Htag H R1 R2 Enabled Idle.
  assert (On : truthy (field_value (form w_outlook) (enabled_key Outlook)) = true).
  { unfold rendered, render, OutlookMailSync.render, props_of in Enabled;
      simpl in Enabled;
      destruct (truthy (field_value (form w_outlook) _)); auto;
      contradiction. }
  assert (Hen : truthy (field_value (form w_sibling) (enabled_key sibling)) = true).
  { destruct sibling; [discriminate Htag | |];
      unfold rendered, render, OneDriveSync.render, OneDriveSyncBare.render,
        props_of in Idle; simpl in Idle;
      destruct (truthy (field_value (form w_sibling) _)); auto; discriminate. }
  unfold status_answer, exec in *.
  split.
  - unfold_ops; unfold status_url in R1; rewrite H; eval_action.
    rewrite R1; simpl.
    unfold rendered, render, OutlookMailSync.render, props_of; simpl.
    simpl in On. rewrite On. auto.
  - destruct sibling; [discriminate Htag | |];
      unfold_ops; unfold status_url in R2; rewrite H; eval_action;
      rewrite R2; simpl;
      unfold rendered, render, OneDriveSync.render, OneDriveSyncBare.render,
        props_of; simpl; simpl in Hen; rewrite Hen; auto.
Qed.

Lemma C9_witness :
  (rendered (render Outlook
     (props_of Outlook (Some "kb1")
        (exec (reporting outlook_running true)
           (checkSyncStatus Outlook (Some "kb1")) (fresh both_form))))
     = EnabledSyncing /\
   spinner (render Outlook
     (props_of Outlook (Some "kb1")
        (exec (reporting outlook_running true)
           (checkSyncStatus Outlook (Some "kb1")) (fresh both_form))))
     = true /\
   action_button (render Outlook
     (props_of Outlook (Some "kb1")
        (exec (reporting outlook_running true)
           (checkSyncStatus Outlook (Some "kb1")) (fresh both_form))))
     = Some CancelButton) /\
  (rendered (render OneDrive
     (props_of OneDrive (Some "kb1")
        (exec (reporting outlook_running true)
           (checkSyncStatus OneDrive (Some "kb1")) (fresh both_form))))
     = EnabledIdle /\
   spinner (render OneDrive
     (props_of OneDrive (Some "kb1")
        (exec (reporting outlook_running true)
           (checkSyncStatus OneDrive (Some "kb1")) (fresh both_form))))
     = false /\
   action_button (render OneDrive
     (props_of OneDrive (Some "kb1")
        (exec (reporting outlook_running true)
           (checkSyncStatus OneDrive (Some "kb1")) (fresh both_form))))
     = Some SyncNowButton).
Proof.
  exact (C9_status_is_read_per_provider OneDrive (Some "kb1")
           (reporting outlook_running true) (fresh both_form) (fresh both_form)
           JUndefined JUndefined eq_refl eq_refl eq_refl eq_refl
           ltac:(discriminate) eq_refl).
Defined.

(** ** The toggle *)

Lemma field_value_insert (f : gmap string jsval) (k : string) (v : jsval) :
  field_value (<[k := v]> f) k = v.
Proof. unfold field_value. now rewrite lookup_insert_eq. Qed.

(** C10: the toggle goes off while [syncing] is true for another
    provider. The handler has no effect at all: no prompt, no request,
    no write to the form, so the value the switch wrote stays [false]. *)
Theorem C10_toggle_off_during_foreign_sync (wd : widget) (E : env) (p : props)
  (w : world) :
  syncing (cells p) = true ->
  is_str (syncType (cells p)) (tag wd) = false ->
  effects E (handleSyncChange wd p false) w = [] /\
  exec E (handleSyncChange wd p false) w = w /\
  events (switchChange E wd p false w) = events w /\
  st (switchChange E wd p false w) = st w /\
  field_value (form (switchChange E wd p false w)) (enabled_key wd)
    = JBool false.
Proof.
  intros Hs Ht. unfold switchChange, exec.
  destruct wd; unfold_ops; simpl in Ht; rewrite Hs, Ht; eval_action;
    rewrite field_value_insert; auto.
Qed.

Lemma C10_witness :
  effects (answering accepted true)
    (handleSyncChange OneDrive
       {| kbId := Some "kb1"; cells := busy_with "outlook";
          syncEnabled := JBool true |} false)
    (with_cells (busy_with "outlook") (fresh both_form)) = [] /\
  exec (answering accepted true)
    (handleSyncChange OneDrive
       {| kbId := Some "kb1"; cells := busy_with "outlook";
          syncEnabled := JBool true |} false)
    (with_cells (busy_with "outlook") (fresh both_form))
    = with_cells (busy_with "outlook") (fresh both_form) /\
  events (switchChange (answering accepted true) OneDrive
            {| kbId := Some "kb1"; cells := busy_with "outlook";
               syncEnabled := JBool true |} false
            (with_cells (busy_with "outlook") (fresh both_form)))
    = events (with_cells (busy_with "outlook") (fresh both_form)) /\
  st (switchChange (answering accepted true) OneDrive
        {| kbId := Some "kb1"; cells := busy_with "outlook";
           syncEnabled := JBool true |} false
        (with_cells (busy_with "outlook") (fresh both_form)))
    = st (with_cells (busy_with "outlook") (fresh both_form)) /\
  field_value
    (form (switchChange (answering accepted true) OneDrive
             {| kbId := Some "kb1"; cells := busy_with "outlook";
                syncEnabled := JBool true |} false
             (with_cells (busy_with "outlook") (fresh both_form))))
    (enabled_key OneDrive) = JBool false.
Proof.
  exact (C10_toggle_off_during_foreign_sync OneDrive (answering accepted true)
           {| kbId := Some "kb1"; cells := busy_with "outlook";
              syncEnabled := JBool true |}
           (with_cells (busy_with "outlook") (fresh both_form))
           eq_refl eq_refl).
Defined.

Lemma handleSyncChange_declined (wd : widget) (E : env) (p : props) (w : world) :
  syncing (cells p) = true ->
  is_str (syncType (cells p)) (tag wd) = true ->
  confirm E (trace w) (T "confirmCancelSync") = false ->
  effects E (handleSyncChange wd p false) w =
  [confirm_prompt; GetParserConfig;
   SetFieldsValue (<[enabled_key wd := JBool true]> (form w))] /\
  form (exec E (handleSyncChange wd p false) w) =
    <[enabled_key wd := JBool true]> (form w).
Proof.
  intros Hs Ht Hc. unfold exec.
  destruct wd; unfold_ops; simpl in Ht; rewrite Hs, Ht; eval_action;
    rewrite Hc; simpl; auto.
Qed.

Lemma handleSyncChange_accepted (wd : widget) (E : env) (p : props) (w : world) :
  syncing (cells p) = true ->
  is_str (syncType (cells p)) (tag wd) = true ->
  confirm E (trace w) (T "confirmCancelSync") = true ->
  effects E (handleSyncChange wd p false) w =
  confirm_prompt :: effects E (cancelSync wd (kbId p)) (log confirm_prompt w).
Proof.
  intros Hs Ht Hc.
  destruct wd; unfold handleSyncChange, OutlookMailSync.handleSyncChange,
    OneDriveSync.handleSyncChange, OneDriveSyncBare.handleSyncChange;
    simpl in Ht; rewrite Hs, Ht; unfold mbind, action_bind; simpl;
    rewrite Hc; simpl; try reflexivity;
    f_equal; rewrite effects_bind, run_bind;
    unfold mret, action_ret; simpl; rewrite effects_bind; simpl;
    now rewrite !app_nil_r.
Qed.

(** C4, as the code has it: the toggle goes off while [syncing] is true
    for the widget's own provider. The confirmation prompt is shown
    first. Declined: the handler writes the toggle back to [true] and
    issues no request. Accepted: [cancelSync] is called once, which
    issues exactly one cancel request when [kbId] is present and none
    when it is absent. *)
Theorem C4_toggle_off_during_own_sync (wd : widget) (E : env) (p : props)
  (w : world) :
  syncing (cells p) = true ->
  is_str (syncType (cells p)) (tag wd) = true ->
  hd_error (effects E (handleSyncChange wd p false) w) = Some confirm_prompt /\
  (confirm E (trace w) (T "confirmCancelSync") = false ->
     effects E (handleSyncChange wd p false) w =
       [confirm_prompt; GetParserConfig;
        SetFieldsValue (<[enabled_key wd := JBool true]> (form w))] /\
     requests (effects E (handleSyncChange wd p false) w) = [] /\
     field_value (form (switchChange E wd p false w)) (enabled_key wd)
       = JBool true) /\
  (confirm E (trace w) (T "confirmCancelSync") = true ->
     effects E (handleSyncChange wd p false) w =
       confirm_prompt ::
       effects E (cancelSync wd (kbId p)) (log confirm_prompt w) /\
     requests (effects E (handleSyncChange wd p false) w) =
       if missing (kbId p) then [] else [cancel_request wd (kbId p)]).
Proof.
  intros Hs Ht. split; [|split].
  - destruct (confirm E (trace w) (T "confirmCancelSync")) eqn:Hc.
    + now rewrite (handleSyncChange_accepted wd E p w Hs Ht Hc).
    + now rewrite (proj1 (handleSyncChange_declined wd E p w Hs Ht Hc)).
  - intros Hc.
    destruct (handleSyncChange_declined wd E p w Hs Ht Hc) as [He _].
    rewrite He. split; [reflexivity|]. split; [reflexivity|].
    unfold switchChange.
    rewrite (proj2 (handleSyncChange_declined wd E p
                      (set_form (<[enabled_key wd := JBool false]> (form w)) w)
                      Hs Ht Hc)).
    apply field_value_insert.
  - intros Hc. rewrite (handleSyncChange_accepted wd E p w Hs Ht Hc).
    split; [reflexivity|].
    destruct (missing (kbId p)) eqn:Hm.
    + destruct (missing_kbId_silent wd (kbId p) E (log confirm_prompt w)
                  JUndefined JUndefined (cancelSync wd (kbId p)) Hm)
        as (_ & Hr & _); [auto|].
      unfold requests in *. simpl. exact Hr.
    + rewrite (cancelSync_effects wd (kbId p) E (log confirm_prompt w) Hm).
      unfold requests, cancel_request. simpl.
      destruct (respond E _ _ _) as [res | err]; simpl;
        [destruct (truthy (res_data res))|]; reflexivity.
Qed.

Lemma C4_witness :
  requests (effects (answering accepted true)
              (handleSyncChange Outlook
                 {| kbId := Some "kb1"; cells := busy_with "outlook";
                    syncEnabled := JBool true |} false)
              (with_cells (busy_with "outlook") (fresh both_form)))
  = [cancel_request Outlook (Some "kb1")].
Proof.
  exact (proj2 (proj2 (proj2
           (C4_toggle_off_during_own_sync Outlook (answering accepted true)
              {| kbId := Some "kb1"; cells := busy_with "outlook";
                 syncEnabled := JBool true |}
              (with_cells (busy_with "outlook") (fresh both_form))
              eq_refl eq_refl)) eq_refl)).
Defined.

(** C4 as stated fails once the id is gone: the Outlook widget was
    mounted on [?id=kb1], a poll reported an Outlook sync, then the id
    left the URL. The cells still say [{true, "outlook"}] and the widget
    renders Enabled-Syncing; the toggle goes off, the user accepts the
    prompt, and no cancel request is issued. *)
Lemma C4_counterexample_absent_kbId :
  st (snd outlook_orphaned) = busy_with "outlook" /\
  rendered (render Outlook (props_of Outlook None (snd outlook_orphaned)))
    = EnabledSyncing /\
  effects (reporting outlook_running true)
    (handleSyncChange Outlook (props_of Outlook None (snd outlook_orphaned))
       false)
    (snd outlook_orphaned) = [confirm_prompt] /\
  requests
    (effects (reporting outlook_running true)
       (handleSyncChange Outlook (props_of Outlook None (snd outlook_orphaned))
          false)
       (snd outlook_orphaned)) = [].
Proof. repeat split; reflexivity. Qed.

(** ** Timers and calls that are not awaited *)

Lemma run_check_callback (wd : widget) (kbId : kb_id) :
  run_callback (check_callback wd kbId) = checkSyncStatus wd kbId.
Proof. destruct wd; reflexivity. Qed.

(** No timer callback of the widgets touches the timers, the clock or
    the form. *)
Lemma callback_frame (E : env) (cb : callback) (w : world) :
  timers (exec E (run_callback cb) w) = timers w /\
  now (exec E (run_callback cb) w) = now w /\
  next_id (exec E (run_callback cb) w) = next_id w /\
  form (exec E (run_callback cb) w) = form w.
Proof.
  unfold exec. destruct cb; unfold_ops; eval_action; crunch; auto.
Qed.

(** Neither does it up to its [await], and the cells are not written
    before the answer is there. *)
Lemma call_frame (E : env) (cb : callback) (w : world) :
  timers (call E cb w) = timers w /\
  now (call E cb w) = now w /\
  next_id (call E cb w) = next_id w /\
  form (call E cb w) = form w /\
  st (call E cb w) = st w.
Proof.
  unfold call. destruct cb as [k | k | k | k e | k]; unfold_ops; eval_action;
    destruct (missing k); simpl; auto.
Qed.

(** What is left of a call after its [await] sends nothing and touches
    neither the timers, the clock, the form nor the calls that wait. *)
Lemma reply_frame (E : env) (cb : callback) (r : outcome) (w : world) :
  timers (exec E (run_reply cb r) w) = timers w /\
  now (exec E (run_reply cb r) w) = now w /\
  next_id (exec E (run_reply cb r) w) = next_id w /\
  form (exec E (run_reply cb r) w) = form w /\
  inflight (exec E (run_reply cb r) w) = inflight w /\
  requests (effects E (run_reply cb r) w) = [] /\
  forall url, count_requests_to url (effects E (run_reply cb r) w) = 0.
Proof.
  unfold exec.
  destruct cb, r; unfold run_reply, OutlookMailSync.checkSyncStatus_settled,
    OneDriveSync.checkSyncStatus_settled,
    OneDriveSyncBare.checkSyncStatus_settled,
    OneDriveSync.triggerSync_settled, OneDriveSyncBare.triggerSync_settled;
    eval_action; crunch; repeat split; intros; reflexivity.
Qed.

(** An awaited call is a call whose answer is there at once: the tags
    name the code after the [await]. *)
Lemma awaited_call (E : env) (cb : callback) (w : world) :
  exec E (run_callback cb) w =
  match drop (length (inflight w)) (inflight (call E cb w)) with
  | [] => call E cb w
  | p :: _ =>
      set_inflight (inflight w)
        (exec E (run_reply (p_cb p) (p_answer p)) (call E cb w))
  end.
Proof.
  unfold call, exec.
  destruct cb as [k | k | k | k e | k]; unfold_ops; eval_action;
    destruct (missing k); simpl;
    rewrite ?drop_all, ?drop_app_length; simpl; try reflexivity;
    unfold run_reply, OutlookMailSync.checkSyncStatus_settled,
      OneDriveSync.checkSyncStatus_settled,
      OneDriveSyncBare.checkSyncStatus_settled,
      OneDriveSync.triggerSync_settled, OneDriveSyncBare.triggerSync_settled;
    eval_action; crunch.
Qed.

Lemma world_eta (w : world) : set_now (now w) w = w.
Proof. now destruct w. Qed.

Lemma set_now_set_now (a b : nat) (w : world) :
  set_now a (set_now b w) = set_now a w.
Proof. reflexivity. Qed.

Lemma advance_add (E : env) (a b : nat) (w : world) :
  advance E (a + b) w = advance E b (advance E a w).
Proof. revert w. induction a as [|a IH]; intros w; simpl; auto. Qed.

Lemma requests_app (l l' : list event) :
  requests (l ++ l') = requests l ++ requests l'.
Proof. apply List.filter_app. Qed.

Lemma count_app (url : string) (l l' : list event) :
  count_requests_to url (l ++ l') =
  count_requests_to url l + count_requests_to url l'.
Proof. unfold count_requests_to. now rewrite List.filter_app, length_app. Qed.

Lemma sent_nothing_refl (w : world) : sent_nothing w w.
Proof. repeat split. Qed.

Lemma sent_nothing_trans (w1 w2 w3 : world) :
  sent_nothing w1 w2 -> sent_nothing w2 w3 -> sent_nothing w1 w3.
Proof.
  intros (A1 & A2 & A3 & A4 & A5 & A6) (B1 & B2 & B3 & B4 & B5 & B6).
  repeat split; try congruence; intros url; now rewrite B6.
Qed.

Lemma settle_sent_nothing (E : env) (p : pending) (w : world) :
  sent_nothing w (settle E p w) /\
  inflight (settle E p w) = inflight w.
Proof.
  unfold settle.
  destruct (reply_frame E (p_cb p) (p_answer p) w)
    as (Ht & Hn & Hi & Hf & Hp & Hr & Hc).
  split; [|exact Hp].
  repeat split; auto.
  - now rewrite trace_exec, requests_app, Hr, app_nil_r.
  - intros url. rewrite trace_exec, count_app, Hc. lia.
Qed.

Lemma settle_all_sent_nothing (E : env) (ps : list pending) (w : world) :
  sent_nothing w (fold_left (fun w' p => settle E p w') ps w) /\
  inflight (fold_left (fun w' p => settle E p w') ps w) = inflight w.
Proof.
  revert w. induction ps as [|p ps IH]; intros w; simpl.
  - split; [apply sent_nothing_refl | reflexivity].
  - destruct (settle_sent_nothing E p w) as (A & B).
    destruct (IH (settle E p w)) as (C & D).
    split; [eapply sent_nothing_trans; eassumption | congruence].
Qed.

(** The arrival of answers sends nothing, and neither sets nor clears a
    timer. *)
Lemma deliver_sent_nothing (E : env) (w : world) :
  sent_nothing w (deliver E w).
Proof.
  unfold deliver.
  eapply sent_nothing_trans;
    [| apply (settle_all_sent_nothing E)].
  repeat split.
Qed.

Lemma deliver_inflight (E : env) (w : world) :
  inflight (deliver E w) =
  List.filter (fun p => negb (Nat.eqb (p_due p) (now w))) (inflight w).
Proof.
  unfold deliver.
  now rewrite (proj2 (settle_all_sent_nothing E _ _)).
Qed.

Lemma deliver_none_waiting (E : env) (w : world) :
  inflight w = [] -> deliver E w = w.
Proof.
  intros H. unfold deliver. rewrite H. simpl.
  destruct w. simpl in H. subst. reflexivity.
Qed.

Lemma tick_unfold (E : env) (w : world) :
  tick E w =
  fold_left (fun w' t => fire E t w')
    (List.filter (fun t => Nat.eqb (t_due t) (S (now w))) (timers w))
    (deliver E (set_now (S (now w)) w)).
Proof.
  unfold tick. cbv zeta.
  destruct (deliver_sent_nothing E (set_now (S (now w)) w)) as (Ht & Hn & _).
  rewrite Ht, Hn. reflexivity.
Qed.

(** What a millisecond does before its timers fire. *)
Lemma elapse (E : env) (w : world) :
  timers (deliver E (set_now (S (now w)) w)) = timers w /\
  now (deliver E (set_now (S (now w)) w)) = S (now w) /\
  next_id (deliver E (set_now (S (now w)) w)) = next_id w /\
  form (deliver E (set_now (S (now w)) w)) = form w /\
  requests (trace (deliver E (set_now (S (now w)) w))) = requests (trace w) /\
  forall url,
    count_requests_to url (trace (deliver E (set_now (S (now w)) w))) =
    count_requests_to url (trace w).
Proof. exact (deliver_sent_nothing E (set_now (S (now w)) w)). Qed.

Lemma tick_no_timers (E : env) (w : world) :
  timers w = [] -> tick E w = deliver E (set_now (S (now w)) w).
Proof. intros H. rewrite tick_unfold, H. reflexivity. Qed.

(** With no timer left, time sends nothing and sets no timer; with no
    call waiting either, nothing happens at all. *)
Lemma advance_no_timers (E : env) (k : nat) (w : world) :
  timers w = [] ->
  timers (advance E k w) = [] /\
  now (advance E k w) = now w + k /\
  requests (trace (advance E k w)) = requests (trace w) /\
  (forall url,
     count_requests_to url (trace (advance E k w)) =
     count_requests_to url (trace w)) /\
  (inflight w = [] -> advance E k w = set_now (now w + k) w).
Proof.
  revert w. induction k as [|k IH]; intros w H; simpl.
  - rewrite Nat.add_0_r. repeat split; auto.
    intros _. symmetry. apply world_eta.
  - rewrite (tick_no_timers E w H).
    destruct (elapse E w) as (Ht & Hn & _ & _ & Hr & Hc).
    destruct (IH (deliver E (set_now (S (now w)) w))) as (A & B & C & D & F);
      [congruence|].
    repeat split.
    + exact A.
    + rewrite B, Hn. lia.
    + congruence.
    + intros url. now rewrite D.
    + intros Hw.
      rewrite (deliver_none_waiting E (set_now (S (now w)) w) Hw) in *.
      rewrite F by exact Hw. simpl.
      rewrite set_now_set_now. f_equal. lia.
Qed.

Lemma rearm_one_interval (id due p : nat) (cb : callback) :
  rearm_one id {| t_id := id; t_cb := cb; t_due := due; t_period := Some p |}
  = [ {| t_id := id; t_cb := cb; t_due := due + p; t_period := Some p |} ].
Proof. unfold rearm_one. simpl. now rewrite Nat.eqb_refl. Qed.

Lemma rearm_one_timeout (id due : nat) (cb : callback) :
  rearm_one id (auto_timer cb id due) = [].
Proof. unfold rearm_one. simpl. now rewrite Nat.eqb_refl. Qed.

Lemma rearm_one_other (id : nat) (t : timer) :
  t_id t <> id -> rearm_one id t = [t].
Proof.
  intros H. unfold rearm_one. apply Nat.eqb_neq in H. now rewrite H.
Qed.

Lemma fire_registered (E : env) (t : timer) (w : world) :
  existsb (fun t' => Nat.eqb (t_id t') (t_id t)) (timers w) = true ->
  fire E t w = call E (t_cb t) (rearm (t_id t) w).
Proof. intros H. unfold fire. now rewrite H. Qed.

Section Polling.

Variables (E : env) (wd : widget) (kbId : kb_id).
Hypothesis present : missing kbId = false.

Lemma check_requests (w : world) :
  requests (trace (exec E (checkSyncStatus wd kbId) w)) =
  requests (trace w) ++ [status_request wd kbId].
Proof.
  rewrite trace_exec. unfold requests. rewrite List.filter_app.
  f_equal. apply (checkSyncStatus_requests wd kbId E w present).
Qed.

(** The status check, called and not awaited: its request leaves and
    the call waits for the answer. *)
Lemma call_check (w : world) :
  trace (call E (check_callback wd kbId) w) =
    trace w ++ [status_request wd kbId] /\
  inflight (call E (check_callback wd kbId) w) =
    inflight w ++
    [ {| p_cb := check_callback wd kbId;
         p_answer := status_answer wd kbId E w;
         p_due := S (now w + latency E (trace w) (status_url wd kbId) None) |} ].
Proof.
  unfold call. destruct wd; simpl; unfold_ops; rewrite present;
    split; reflexivity.
Qed.

(** One millisecond with the poll interval alone. *)
Lemma tick_poll (id due : nat) (w : world) :
  timers w = [poll_timer wd kbId id due] ->
  timers (tick E w) =
    [poll_timer wd kbId id
       (if Nat.eqb due (S (now w)) then due + 5000 else due)] /\
  now (tick E w) = S (now w) /\
  next_id (tick E w) = next_id w /\
  requests (trace (tick E w)) =
    requests (trace w) ++
    (if Nat.eqb due (S (now w)) then [status_request wd kbId] else []).
Proof.
  intros H. rewrite tick_unfold, H.
  destruct (elapse E w) as (Ht & Hn & Hi & _ & Hr & _).
  cbn [List.filter poll_timer t_due].
  destruct (Nat.eqb due (S (now w))); cbn [fold_left].
  - rewrite fire_registered
      by (rewrite Ht, H; cbn; now rewrite Nat.eqb_refl).
    cbn [poll_timer t_cb t_id].
    destruct (call_frame E (check_callback wd kbId)
                (rearm id (deliver E (set_now (S (now w)) w))))
      as (Ct & Cn & Ci & _).
    destruct (call_check (rearm id (deliver E (set_now (S (now w)) w))))
      as (Ctr & _).
    rewrite Ct, Cn, Ci, Ctr, requests_app.
    unfold rearm. cbn [timers now next_id set_timers].
    rewrite Ht, H. cbn [flat_map].
    unfold poll_timer at 1. rewrite rearm_one_interval, app_nil_r.
    change (trace (set_timers ?ts ?x)) with (trace x).
    rewrite Hr. repeat split; auto.
  - rewrite Ht, Hn, Hi, Hr, H, app_nil_r. repeat split; auto.
Qed.

Lemma advance_poll_idle (id due k : nat) (w : world) :
  timers w = [poll_timer wd kbId id due] -> now w + k < due ->
  timers (advance E k w) = [poll_timer wd kbId id due] /\
  now (advance E k w) = now w + k /\
  next_id (advance E k w) = next_id w /\
  requests (trace (advance E k w)) = requests (trace w).
Proof.
  revert w. induction k as [|k IH]; intros w H Hk; simpl.
  - rewrite Nat.add_0_r. auto.
  - destruct (tick_poll id due w H) as (Ht & Hn & Hi & Hr).
    assert (Hd : Nat.eqb due (S (now w)) = false)
      by (apply Nat.eqb_neq; lia).
    rewrite Hd in Ht, Hr. rewrite app_nil_r in Hr.
    destruct (IH (tick E w) Ht) as (A & B & C & D); [lia|].
    repeat split; try congruence. rewrite B, Hn. lia.
Qed.

(** From one firing to the next: a full period. *)
Lemma advance_poll_period (id : nat) (w : world) :
  timers w = [poll_timer wd kbId id (now w + 5000)] ->
  timers (advance E 5000 w) = [poll_timer wd kbId id (now w + 5000 + 5000)] /\
  now (advance E 5000 w) = now w + 5000 /\
  next_id (advance E 5000 w) = next_id w /\
  requests (trace (advance E 5000 w)) =
    requests (trace w) ++ [status_request wd kbId].
Proof.
  intros H.
  assert (Hadv : advance E 5000 w = tick E (advance E 4999 w)).
  { change 5000 with (4999 + 1) at 1. now rewrite advance_add. }
  rewrite !Hadv.
  destruct (advance_poll_idle id (now w + 5000) 4999 w H) as (A & B & C & D);
    [lia|].
  destruct (tick_poll id (now w + 5000) (advance E 4999 w) A)
    as (Ht & Hn & Hi & Hr).
  assert (Hd : Nat.eqb (now w + 5000) (S (now (advance E 4999 w))) = true)
    by (apply Nat.eqb_eq; lia).
  rewrite Hd in Ht, Hr.
  repeat split; try congruence.
  rewrite Hn, B. lia.
Qed.

Lemma poll_cycles (id n r : nat) (w : world) :
  timers w = [poll_timer wd kbId id (now w + 5000)] -> r < 5000 ->
  requests (trace (advance E (5000 * n + r) w)) =
  requests (trace w) ++ repeat (status_request wd kbId) n.
Proof.
  revert w. induction n as [|n IH]; intros w H Hr.
  - rewrite Nat.mul_0_r. simpl.
    destruct (advance_poll_idle id (now w + 5000) r w H) as (_ & _ & _ & D);
      [lia|].
    now rewrite D, app_nil_r.
  - replace (5000 * S n + r) with (5000 + (5000 * n + r)) by lia.
    rewrite advance_add.
    destruct (advance_poll_period id w H) as (A & B & _ & D).
    rewrite IH; [| now rewrite A, B | exact Hr].
    rewrite D. simpl. now rewrite <- app_assoc.
Qed.

(** While mounted the one interval stays registered. *)
Lemma poll_timer_stays (id t : nat) (w : world) (due : nat) :
  timers w = [poll_timer wd kbId id due] ->
  exists due', timers (advance E t w) = [poll_timer wd kbId id due'].
Proof.
  revert w due. induction t as [|t IH]; intros w due H; simpl.
  - eauto.
  - destruct (tick_poll id due w H) as (Ht & _). eapply IH. exact Ht.
Qed.

End Polling.

(** ** The polling effect *)

Lemma mount_missing (E : env) (wd : widget) (kbId : kb_id) (w0 : world) :
  missing kbId = true -> mount E wd kbId w0 = (None, w0).
Proof.
  intros H. unfold mount. destruct wd; unfold_ops; rewrite H; reflexivity.
Qed.

Lemma mount_present (E : env) (wd : widget) (kbId : kb_id) (w0 : world) :
  missing kbId = false ->
  mount E wd kbId w0 =
  (Some (next_id w0),
   log (SetInterval (check_callback wd kbId) 5000)
     (add_timer (check_callback wd kbId) 5000 (Some 5000)
        (call E (check_callback wd kbId) w0))).
Proof.
  intros H.
  destruct (call_frame E (check_callback wd kbId) w0) as (_ & _ & Hn & _).
  unfold mount.
  destruct wd; unfold pollingEffect, OutlookMailSync.pollingEffect,
    OneDriveSync.pollingEffect, OneDriveSyncBare.pollingEffect;
    rewrite H; eval_action; cbn [check_callback] in *;
    unfold call in Hn; cbn [run_callback] in Hn; now rewrite Hn.
Qed.

Lemma mounted_timers (E : env) (wd : widget) (kbId : kb_id) (w0 : world) :
  missing kbId = false -> timers w0 = [] ->
  timers (mounted E wd kbId w0) =
    [poll_timer wd kbId (next_id w0) (now w0 + 5000)] /\
  now (mounted E wd kbId w0) = now w0 /\
  trace (mounted E wd kbId w0) =
    trace w0 ++
    [status_request wd kbId; SetInterval (check_callback wd kbId) 5000] /\
  requests (trace (mounted E wd kbId w0)) =
    requests (trace w0) ++ [status_request wd kbId].
Proof.
  intros H H0. unfold mounted. rewrite (mount_present E wd kbId w0 H).
  cbn [snd].
  destruct (call_frame E (check_callback wd kbId) w0) as (Ht & Hn & Hi & _).
  destruct (call_check E wd kbId H w0) as (Htr & _).
  assert (Hfull : trace
            (log (SetInterval (check_callback wd kbId) 5000)
               (add_timer (check_callback wd kbId) 5000 (Some 5000)
                  (call E (check_callback wd kbId) w0))) =
          trace w0 ++
          [status_request wd kbId; SetInterval (check_callback wd kbId) 5000]).
  { rewrite trace_log.
    change (trace (add_timer ?c ?m ?p ?w)) with (trace w).
    rewrite Htr, <- app_assoc. reflexivity. }
  split; [|split; [|split]].
  - cbn [timers log add_timer]. rewrite Ht, Hn, Hi, H0. reflexivity.
  - cbn [now log add_timer]. exact Hn.
  - exact Hfull.
  - rewrite Hfull, requests_app. reflexivity.
Qed.

Lemma cleanup_poll (E : env) (wd : widget) (kbId : kb_id) (id due : nat)
  (w : world) :
  timers w = [poll_timer wd kbId id due] ->
  timers (cleanup E (Some id) w) = [].
Proof.
  intros H. unfold cleanup, exec. simpl. rewrite H. simpl.
  now rewrite Nat.eqb_refl.
Qed.

(** Once the timers are gone no request is sent and no timer comes
    back; what can still happen is the arrival of answers to requests
    sent before. *)
Lemma quiet_without_timers (E : env) (k : nat) (w : world) :
  timers w = [] ->
  timers (advance E k w) = [] /\
  requests (trace (advance E k w)) = requests (trace w) /\
  (inflight w = [] ->
   events (advance E k w) = events w /\ st (advance E k w) = st w).
Proof.
  intros H. destruct (advance_no_timers E k w H) as (A & _ & C & _ & F).
  split; [exact A|]. split; [exact C|].
  intros Hw. rewrite (F Hw). split; reflexivity.
Qed.

(** C6, as the code has it. A mount with [kbId] present (neither null
    nor the empty string) sends the status request at once, without
    waiting for its answer, and registers one interval of 5000 ms; from
    then on there is exactly one status request per elapsed period:
    after [5000 * n + r] ms ([r < 5000]) the instance has sent [n + 1]
    of them, however long the answers take. Unmounting, or a render in
    which the id has become absent, clears the interval: from then on
    there is no timer, and no time that passes sends a request; if no
    call is waiting for an answer at that moment, nothing happens at
    all any more. With [kbId] null or empty the mount does nothing and
    creates no timer. *)
Theorem C6_polling_life_cycle (wd : widget) (kbId : kb_id) (E : env)
  (w0 : world) :
  timers w0 = [] ->
  (missing kbId = true -> mount E wd kbId w0 = (None, w0)) /\
  (missing kbId = false ->
   trace (mounted E wd kbId w0) =
     trace w0 ++
     [status_request wd kbId; SetInterval (check_callback wd kbId) 5000] /\
   fst (mount E wd kbId w0) = Some (next_id w0) /\
   timers (mounted E wd kbId w0) =
     [poll_timer wd kbId (next_id w0) (now w0 + 5000)] /\
   (forall n r, r < 5000 ->
      requests (trace (advance E (5000 * n + r) (mounted E wd kbId w0))) =
      requests (trace w0) ++ repeat (status_request wd kbId) (S n)) /\
   (forall t k,
      timers (unmounted E wd kbId w0 t) = [] /\
      timers (advance E k (unmounted E wd kbId w0 t)) = [] /\
      requests (trace (advance E k (unmounted E wd kbId w0 t))) =
        requests (trace (unmounted E wd kbId w0 t)) /\
      (inflight (unmounted E wd kbId w0 t) = [] ->
       events (advance E k (unmounted E wd kbId w0 t)) =
         events (unmounted E wd kbId w0 t) /\
       st (advance E k (unmounted E wd kbId w0 t)) =
         st (unmounted E wd kbId w0 t))) /\
   (forall new t k, missing new = true ->
      fst (id_changed E wd kbId new w0 t) = None /\
      timers (snd (id_changed E wd kbId new w0 t)) = [] /\
      timers (advance E k (snd (id_changed E wd kbId new w0 t))) = [] /\
      requests (trace (advance E k (snd (id_changed E wd kbId new w0 t)))) =
        requests (trace (snd (id_changed E wd kbId new w0 t))) /\
      (inflight (snd (id_changed E wd kbId new w0 t)) = [] ->
       events (advance E k (snd (id_changed E wd kbId new w0 t))) =
         events (snd (id_changed E wd kbId new w0 t)) /\
       st (advance E k (snd (id_changed E wd kbId new w0 t))) =
         st (snd (id_changed E wd kbId new w0 t))))).
Proof.
  intros H0. split; [apply mount_missing|]. intros H.
  destruct (mounted_timers E wd kbId w0 H H0) as (Ht & Hn & Htr & Hr).
  assert (Hid : fst (mount E wd kbId w0) = Some (next_id w0))
    by now rewrite (mount_present E wd kbId w0 H).
  assert (Hclean : forall t,
            timers (cleanup E (Some (next_id w0))
                      (advance E t (mounted E wd kbId w0))) = []).
  { intros t.
    destruct (poll_timer_stays E wd kbId H (next_id w0) t
                (mounted E wd kbId w0) (now w0 + 5000) Ht) as (due' & Hd).
    now apply (cleanup_poll E wd kbId (next_id w0) due'). }
  split; [exact Htr |
          split; [exact Hid | split; [exact Ht | split; [|split]]]].
  - intros n r Hlt.
    rewrite (poll_cycles E wd kbId H (next_id w0) n r (mounted E wd kbId w0));
      [| now rewrite Hn | exact Hlt].
    rewrite Hr, <- app_assoc. reflexivity.
  - intros t k. unfold unmounted, unmount. rewrite Hid.
    split; [apply Hclean | apply quiet_without_timers, Hclean].
  - intros new t k Hnew. unfold id_changed, change_kbId. rewrite Hid.
    destruct (decide (kbId = new)) as [-> | _]; [congruence|].
    rewrite (mount_missing E wd new _ Hnew). cbn [fst snd].
    split; [reflexivity|].
    split; [apply Hclean | apply quiet_without_timers, Hclean].
Qed.

Lemma C6_witness :
  requests
    (trace (advance (reporting outlook_running true) (5000 * 2 + 0)
              (mounted (reporting outlook_running true) Outlook (Some "kb1")
                 (fresh both_form)))) =
  requests (trace (fresh both_form)) ++
  repeat (status_request Outlook (Some "kb1")) 3.
Proof.
  exact (proj1 (proj2 (proj2 (proj2
           (proj2 (C6_polling_life_cycle Outlook (Some "kb1")
                     (reporting outlook_running true) (fresh both_form)
                     eq_refl) eq_refl))))
           2 0 (Nat.lt_0_succ 4999)).
Defined.

(** C6 as stated fails for the non-null id of [?id=]: the empty string.
    The mount sends no status request and registers no interval, and
    ten seconds later there still was none. *)
Lemma C6_counterexample_empty_kbId :
  mount (reporting outlook_running true) Outlook (Some "") (fresh both_form)
    = (None, fresh both_form) /\
  timers (mounted (reporting outlook_running true) Outlook (Some "")
            (fresh both_form)) = [] /\
  requests
    (trace (advance (reporting outlook_running true) 10000
              (mounted (reporting outlook_running true) Outlook (Some "")
                 (fresh both_form)))) = [].
Proof. repeat split; vm_compute; reflexivity. Qed.

(** Nothing stops a call that waits for its answer: the id leaves the
    URL five milliseconds after the mount and the interval is cleared;
    the answer to the first status request arrives later and the cells
    are written then, so that the widget renders Enabled-Syncing with
    no poller left to put it back. No request follows. *)
Example answer_after_teardown :
  timers outlook_orphaned_early = [] /\
  length (inflight outlook_orphaned_early) = 1 /\
  st outlook_orphaned_early = {| syncing := false; syncType := JNull |} /\
  st (advance (slow 10 (reporting outlook_running true)) 20
        outlook_orphaned_early) = busy_with "outlook" /\
  rendered
    (render Outlook
       (props_of Outlook None
          (advance (slow 10 (reporting outlook_running true)) 20
             outlook_orphaned_early))) = EnabledSyncing /\
  requests
    (trace (advance (slow 10 (reporting outlook_running true)) 20
              outlook_orphaned_early)) =
  requests (trace outlook_orphaned_early).
Proof. repeat split; vm_compute; reflexivity. Qed.

(** ** The auto-trigger timeout *)

Lemma triggers_exec {A} (E : env) (wd : widget) (p : action A) (w : world) :
  triggers wd (exec E p w) =
  triggers wd w + count_requests_to (trigger_url wd) (effects E p w).
Proof.
  unfold triggers, count_requests_to.
  now rewrite trace_exec, List.filter_app, length_app.
Qed.

Lemma check_no_trigger (E : env) (wd wd' : widget) (kbId : kb_id) (w : world) :
  count_requests_to (trigger_url wd) (effects E (checkSyncStatus wd' kbId) w)
  = 0.
Proof.
  destruct wd, wd'; unfold_ops; eval_action; crunch.
Qed.

Lemma auto_trigger_requests (E : env) (wd : widget) (kbId : kb_id)
  (email : jsval) (cb : callback) (w : world) :
  auto_callback wd kbId email = Some cb ->
  requests (effects E (run_callback cb) w) =
  if missing kbId then []
  else [trigger_request wd kbId email (field_value (form w) (folder_key wd))].
Proof.
  intros Hcb.
  destruct wd; simpl in Hcb; [discriminate | |]; injection Hcb as <-;
    unfold_ops; eval_action; crunch.
Qed.

Lemma auto_trigger_count (E : env) (wd : widget) (kbId : kb_id)
  (email : jsval) (cb : callback) (w : world) :
  auto_callback wd kbId email = Some cb ->
  count_requests_to (trigger_url wd) (effects E (run_callback cb) w) =
  if missing kbId then 0 else 1.
Proof.
  intros Hcb.
  destruct wd; simpl in Hcb; [discriminate | |]; injection Hcb as <-;
    unfold_ops; eval_action; crunch.
Qed.

(** A status check that is called and not awaited sends no trigger
    request. *)
Lemma call_check_triggers (E : env) (wd wd' : widget) (kbId : kb_id)
  (w : world) :
  triggers wd (call E (check_callback wd' kbId) w) = triggers wd w.
Proof.
  unfold call, triggers, count_requests_to.
  destruct wd, wd'; simpl; unfold_ops; eval_action;
    destruct (missing kbId); unfold send, trace; simpl;
    rewrite ?List.filter_app, ?length_app; simpl; lia.
Qed.

Section AutoTrigger.

Variables (E : env) (wd : widget) (kbId : kb_id) (email : jsval)
  (cb : callback).
Hypothesis auto : auto_callback wd kbId email = Some cb.

(** The trigger call of the timeout, called and not awaited, sends its
    request when the id is present. *)
Lemma call_auto_triggers (w : world) :
  triggers wd (call E cb w) =
  triggers wd w + (if missing kbId then 0 else 1).
Proof.
  unfold call, triggers, count_requests_to.
  destruct wd; simpl in auto; [discriminate | |]; injection auto as <-;
    unfold_ops; eval_action;
    destruct (missing kbId); unfold send, trace; simpl;
    rewrite ?List.filter_app, ?length_app; simpl; lia.
Qed.

Lemma fire_poll (ip dp : nat) (rest : list timer) (w : world) :
  timers w = poll_timer wd kbId ip dp :: rest ->
  Forall (fun t => t_id t <> ip) rest ->
  timers (fire E (poll_timer wd kbId ip dp) w) =
    poll_timer wd kbId ip (dp + 5000) :: rest /\
  now (fire E (poll_timer wd kbId ip dp) w) = now w /\
  triggers wd (fire E (poll_timer wd kbId ip dp) w) = triggers wd w.
Proof.
  intros H Hrest.
  rewrite fire_registered by (rewrite H; simpl; now rewrite Nat.eqb_refl).
  destruct (call_frame E (t_cb (poll_timer wd kbId ip dp))
              (rearm (t_id (poll_timer wd kbId ip dp)) w)) as (Ht & Hn & _).
  rewrite Ht, Hn. simpl t_cb. rewrite call_check_triggers.
  unfold rearm. simpl. rewrite H. simpl.
  unfold poll_timer at 1. rewrite rearm_one_interval.
  assert (Hsame : flat_map (rearm_one ip) rest = rest).
  { clear H. induction Hrest as [| t ts Hne _ IH]; simpl.
    - reflexivity.
    - now rewrite (rearm_one_other ip t Hne), IH. }
  rewrite Hsame. repeat split.
Qed.

Lemma fire_auto (ia da : nat) (before : list timer) (w : world) :
  timers w = before ++ [auto_timer cb ia da] ->
  Forall (fun t => t_id t <> ia) before ->
  timers (fire E (auto_timer cb ia da) w) = before /\
  now (fire E (auto_timer cb ia da) w) = now w /\
  triggers wd (fire E (auto_timer cb ia da) w) =
    triggers wd w + (if missing kbId then 0 else 1).
Proof.
  intros H Hb.
  rewrite fire_registered
    by (rewrite H, existsb_app; simpl; rewrite Nat.eqb_refl;
        now rewrite !orb_true_r).
  destruct (call_frame E (t_cb (auto_timer cb ia da))
              (rearm (t_id (auto_timer cb ia da)) w)) as (Ht & Hn & _).
  rewrite Ht, Hn. simpl t_cb. rewrite call_auto_triggers.
  unfold rearm. simpl. rewrite H, flat_map_app. simpl.
  rewrite rearm_one_timeout, app_nil_r.
  assert (Hsame : flat_map (rearm_one ia) before = before).
  { clear H. induction Hb as [| t ts Hne _ IH]; simpl.
    - reflexivity.
    - now rewrite (rearm_one_other ia t Hne), IH. }
  rewrite Hsame. repeat split.
Qed.

(** One millisecond with the poll interval alone. *)
Lemma tick_poll_only (ip dp : nat) (w : world) :
  timers w = [poll_timer wd kbId ip dp] ->
  exists dp',
    timers (tick E w) = [poll_timer wd kbId ip dp'] /\
    now (tick E w) = S (now w) /\
    triggers wd (tick E w) = triggers wd w.
Proof.
  intros H. rewrite tick_unfold, H.
  destruct (elapse E w) as (Ht & Hn & _ & _ & _ & Hq).
  rewrite H in Ht.
  assert (Hc : triggers wd (deliver E (set_now (S (now w)) w)) = triggers wd w)
    by exact (Hq (trigger_url wd)).
  cbn [List.filter poll_timer t_due].
  destruct (Nat.eqb dp (S (now w))); cbn [fold_left].
  - destruct (fire_poll ip dp [] _ Ht (List.Forall_nil _))
      as (Ht' & Hn' & Hc').
    exists (dp + 5000). rewrite Ht', Hn', Hc'. auto.
  - exists dp. auto.
Qed.

(** One millisecond with the poll interval and the pending timeout. *)
Lemma tick_poll_auto (ip ia dp da : nat) (w : world) :
  timers w = [poll_timer wd kbId ip dp; auto_timer cb ia da] ->
  ip <> ia ->
  exists dp',
    timers (tick E w) =
      (if Nat.eqb da (S (now w)) then [poll_timer wd kbId ip dp']
       else [poll_timer wd kbId ip dp'; auto_timer cb ia da]) /\
    now (tick E w) = S (now w) /\
    triggers wd (tick E w) =
      triggers wd w +
      (if Nat.eqb da (S (now w)) then if missing kbId then 0 else 1 else 0).
Proof.
  intros H Hne. rewrite tick_unfold, H.
  destruct (elapse E w) as (Ht & Hn & _ & _ & _ & Hq).
  rewrite H in Ht.
  assert (Hc : triggers wd (deliver E (set_now (S (now w)) w)) = triggers wd w)
    by exact (Hq (trigger_url wd)).
  cbn [List.filter poll_timer auto_timer t_due].
  assert (Hrest : Forall (fun t => t_id t <> ip) [auto_timer cb ia da])
    by (constructor; [simpl; congruence | constructor]).
  destruct (Nat.eqb dp (S (now w))), (Nat.eqb da (S (now w)));
    cbn [fold_left].
  - destruct (fire_poll ip dp _ _ Ht Hrest) as (Ht1 & Hn1 & Hc1).
    destruct (fire_auto ia da [poll_timer wd kbId ip (dp + 5000)] _ Ht1)
      as (Ht2 & Hn2 & Hc2).
    { constructor; [simpl; congruence | constructor]. }
    exists (dp + 5000). rewrite Ht2, Hn2, Hc2, Hn1, Hc1, Hn, Hc. auto.
  - destruct (fire_poll ip dp _ _ Ht Hrest) as (Ht1 & Hn1 & Hc1).
    exists (dp + 5000). rewrite Ht1, Hn1, Hc1, Hn, Hc, Nat.add_0_r. auto.
  - destruct (fire_auto ia da [poll_timer wd kbId ip dp] _ Ht)
      as (Ht1 & Hn1 & Hc1).
    { constructor; [simpl; congruence | constructor]. }
    exists dp. rewrite Ht1, Hn1, Hc1, Hn, Hc. auto.
  - exists dp. rewrite Ht, Hn, Hc, Nat.add_0_r. auto.
Qed.

Lemma advance_poll_only (ip k : nat) (w : world) (dp : nat) :
  timers w = [poll_timer wd kbId ip dp] ->
  triggers wd (advance E k w) = triggers wd w.
Proof.
  revert w dp. induction k as [|k IH]; intros w dp H; simpl; [reflexivity|].
  destruct (tick_poll_only ip dp w H) as (dp' & Ht & _ & Hc).
  now rewrite (IH _ dp' Ht).
Qed.

Lemma advance_before_timeout (ip ia da k : nat) (w : world) (dp : nat) :
  timers w = [poll_timer wd kbId ip dp; auto_timer cb ia da] ->
  ip <> ia -> now w + k < da ->
  exists dp',
    timers (advance E k w) =
      [poll_timer wd kbId ip dp'; auto_timer cb ia da] /\
    now (advance E k w) = now w + k /\
    triggers wd (advance E k w) = triggers wd w.
Proof.
  revert w dp. induction k as [|k IH]; intros w dp H Hne Hk; simpl.
  - exists dp. rewrite Nat.add_0_r. auto.
  - destruct (tick_poll_auto ip ia dp da w H Hne) as (dp' & Ht & Hn & Hc).
    assert (Hd : Nat.eqb da (S (now w)) = false)
      by (apply Nat.eqb_neq; lia).
    rewrite Hd in Ht, Hc.
    destruct (IH (tick E w) dp' Ht Hne) as (dp'' & Ht' & Hn' & Hc');
      [lia|].
    exists dp''. rewrite Ht', Hn', Hc', Hn, Hc. repeat split; lia.
Qed.

(** The timeout fires once, 1000 ms after it was set, and never again. *)
Lemma auto_fires_once (ip ia dp k : nat) (w : world) :
  timers w = [poll_timer wd kbId ip dp; auto_timer cb ia (now w + 1000)] ->
  ip <> ia ->
  triggers wd (advance E k w) =
  triggers wd w +
  (if Nat.leb 1000 k then if missing kbId then 0 else 1 else 0).
Proof.
  intros H Hne. destruct (Nat.leb 1000 k) eqn:Hk.
  - apply Nat.leb_le in Hk.
    replace k with (999 + (1 + (k - 1000))) by lia.
    rewrite advance_add.
    destruct (advance_before_timeout ip ia (now w + 1000) 999 w dp H Hne)
      as (dp' & Ht & Hn & Hc); [lia|].
    rewrite advance_add.
    destruct (tick_poll_auto ip ia dp' (now w + 1000)
                (advance E 999 w) Ht Hne) as (dp'' & Ht' & Hn' & Hc').
    assert (Hd : Nat.eqb (now w + 1000) (S (now (advance E 999 w))) = true)
      by (apply Nat.eqb_eq; lia).
    rewrite Hd in Ht', Hc'.
    change (advance E 1 (advance E 999 w)) with (tick E (advance E 999 w)).
    rewrite (advance_poll_only ip (k - 1000) _ dp'' Ht'), Hc', Hc.
    reflexivity.
  - apply Nat.leb_gt in Hk.
    destruct (advance_before_timeout ip ia (now w + 1000) k w dp H Hne)
      as (dp' & _ & _ & Hc); [lia|].
    rewrite Hc. lia.
Qed.

End AutoTrigger.

Lemma triggers_log (wd : widget) (e : event) (w : world) :
  is_request_to (trigger_url wd) e = false ->
  triggers wd (log e w) = triggers wd w.
Proof.
  intros H. unfold triggers, count_requests_to.
  rewrite trace_log, List.filter_app, length_app. simpl. rewrite H. simpl.
  lia.
Qed.

Lemma handleSyncChange_enable (wd : widget) (E : env) (p : props) (w : world) :
  tag wd = "onedrive" ->
  truthy (syncEnabled p) = false ->
  truthy (field_value (form w) (email_key wd)) = true ->
  exists cb,
    auto_callback wd (kbId p) (field_value (form w) (email_key wd)) = Some cb /\
    effects E (handleSyncChange wd p true) w =
      [GetFieldValue (email_key wd); SetTimeout cb 1000] /\
    exec E (handleSyncChange wd p true) w =
      log (SetTimeout cb 1000)
        (add_timer cb 1000 None (log (GetFieldValue (email_key wd)) w)).
Proof.
  intros Htag Hoff Hmail. unfold exec.
  destruct wd; [discriminate Htag | |]; simpl in Hmail;
    eexists; (split; [reflexivity|]);
    unfold_ops; rewrite Hoff; eval_action; rewrite Hmail; simpl; auto.
Qed.

Lemma outlook_never_auto_triggers (E : env) (p : props) (checked : bool)
  (w : world) :
  forallb no_auto_trigger (effects E (handleSyncChange Outlook p checked) w)
  = true.
Proof.
  unfold_ops; eval_action; crunch.
  unfold OutlookMailSync.cancelSync; eval_action; crunch.
Qed.

(** C8, as the code has it. In either OneDrive widget, the toggle going
    from off to on while the form holds an e-mail has exactly two
    effects: the e-mail is read and one timeout of 1000 ms is set whose
    callback is the widget's trigger call. That call sends exactly one
    trigger request when [kbId] is present and none when it is absent;
    on an instance that is polling, the number of trigger requests sent
    is unchanged before 1000 ms have passed and is one more (none more
    without [kbId]) from then on. In the Outlook widget no toggle change
    sets a timer or sends a trigger request, and its form-only revision
    has no toggle handler at all. *)
Theorem C8_auto_trigger_per_provider :
  (forall (wd : widget) (E : env) (p : props) (w : world),
      tag wd = "onedrive" ->
      truthy (syncEnabled p) = false ->
      truthy (field_value (form w) (email_key wd)) = true ->
      exists cb,
        auto_callback wd (kbId p) (field_value (form w) (email_key wd))
          = Some cb /\
        effects E (handleSyncChange wd p true) w =
          [GetFieldValue (email_key wd); SetTimeout cb 1000] /\
        (forall w',
            requests (effects E (run_callback cb) w') =
            if missing (kbId p) then []
            else [trigger_request wd (kbId p)
                    (field_value (form w) (email_key wd))
                    (field_value (form w') (folder_key wd))]) /\
        (forall ip dp k,
            timers w = [poll_timer wd (kbId p) ip dp] -> ip < next_id w ->
            triggers wd (advance E k (exec E (handleSyncChange wd p true) w)) =
            triggers wd w +
            (if Nat.leb 1000 k then if missing (kbId p) then 0 else 1 else 0)))
  /\
  (forall (E : env) (p : props) (checked : bool) (w : world),
      forallb no_auto_trigger
        (effects E (handleSyncChange Outlook p checked) w) = true)
  /\
  (forall p : props, switch_onChange (OutlookMailSyncForm.render p) = false).
Proof.
  split; [| split; [apply outlook_never_auto_triggers | reflexivity]].
  intros wd E p w Htag Hoff Hmail.
  destruct (handleSyncChange_enable wd E p w Htag Hoff Hmail)
    as (cb & Hcb & Heff & Hexec).
  exists cb. split; [exact Hcb|]. split; [exact Heff|]. split.
  - intros w'. apply (auto_trigger_requests E wd (kbId p) _ cb w' Hcb).
  - intros ip dp k Ht Hlt. rewrite Hexec.
    rewrite (auto_fires_once E wd (kbId p) _ cb Hcb ip (next_id w) dp k).
    + rewrite triggers_log by reflexivity.
      change (triggers wd (add_timer ?c ?m ?o ?x)) with (triggers wd x).
      now rewrite triggers_log by reflexivity.
    + simpl. rewrite Ht. reflexivity.
    + lia.
Qed.

Lemma C8_witness :
  exists cb,
    auto_callback OneDrive (Some "kb1")
      (field_value (form (fresh (onedrive_form false "a@b.com")))
         (email_key OneDrive)) = Some cb /\
    effects (answering accepted true)
      (handleSyncChange OneDrive
         (props_of OneDrive (Some "kb1") (fresh (onedrive_form false "a@b.com")))
         true)
      (fresh (onedrive_form false "a@b.com")) =
    [GetFieldValue (email_key OneDrive); SetTimeout cb 1000].
Proof.
  destruct (proj1 C8_auto_trigger_per_provider OneDrive
              (answering accepted true)
              (props_of OneDrive (Some "kb1")
                 (fresh (onedrive_form false "a@b.com")))
              (fresh (onedrive_form false "a@b.com"))
              eq_refl eq_refl eq_refl) as (cb & Hcb & Heff & _).
  exists cb. split; [exact Hcb | exact Heff].
Defined.

(** C8 as stated fails without an id: the OneDrive widget is opened with
    no [id] in the URL, its form holds an e-mail, and the toggle goes
    from off to on. One timeout is set; it has fired after 1000 ms; no
    trigger request was sent then or in the seconds after. *)
Lemma C8_counterexample_absent_kbId :
  truthy (syncEnabled (props_of OneDrive None onedrive_no_id)) = false /\
  truthy (field_value (form onedrive_no_id) "onedrive_email") = true /\
  timers onedrive_no_id_enabled =
    [auto_timer (OneDriveAuto None (JStr "a@b.com")) 0 1000] /\
  timers (advance (answering accepted true) 1000 onedrive_no_id_enabled)
    = [] /\
  requests
    (trace (advance (answering accepted true) 5000 onedrive_no_id_enabled))
    = [].
Proof. repeat split; vm_compute; reflexivity. Qed.

(** * Further properties of the widgets *)

(** ** What a status answer does to the cells *)

Lemma assoc_without_key (k : string) (fs : list (string * jsval)) :
  has_key k fs = false -> assoc k fs = JUndefined.
Proof.
  unfold has_key. induction fs as [| [k' v] fs IH]; simpl; [reflexivity|].
  intros H. apply orb_false_elim in H as [Hk Hrest].
  rewrite String.eqb_sym, Hk. now apply IH.
Qed.

(** X1: the cells after a resolved status check are a function of the
    answer alone: whatever [syncing] and [syncType] held before (an
    optimistic value included) is overwritten, and [syncing = false]
    always comes with [syncType = null]. *)
Theorem X1_poll_overwrites_cells (wd : widget) (kbId : kb_id) (E : env)
  (w w' : world) (res : response) :
  missing kbId = false ->
  status_answer wd kbId E w = Resolved res ->
  status_answer wd kbId E w' = Resolved res ->
  st (exec E (checkSyncStatus wd kbId) w) =
    st (exec E (checkSyncStatus wd kbId) w') /\
  (syncing (st (exec E (checkSyncStatus wd kbId) w)) = false ->
   syncType (st (exec E (checkSyncStatus wd kbId) w)) = JNull).
Proof.
  intros H R R'.
  rewrite (checkSyncStatus_resolved wd kbId E w res H R),
    (checkSyncStatus_resolved wd kbId E w' res H R').
  split; [reflexivity|].
  destruct (truthy (get (res_data res) "is_syncing")); simpl;
    [discriminate | reflexivity].
Qed.

Lemma X1_witness :
  st (exec (reporting outlook_running true)
        (checkSyncStatus OneDrive (Some "kb1")) (fresh both_form)) =
  st (exec (reporting outlook_running true)
        (checkSyncStatus OneDrive (Some "kb1"))
        (with_cells (busy_with "onedrive") (fresh both_form))).
Proof.
  exact (proj1 (X1_poll_overwrites_cells OneDrive (Some "kb1")
                  (reporting outlook_running true) (fresh both_form)
                  (with_cells (busy_with "onedrive") (fresh both_form))
                  {| res_data := outlook_running; res_message := JUndefined |}
                  eq_refl eq_refl eq_refl)).
Defined.

(** X2: a resolved status answer whose [data] is [undefined], [null], a
    primitive, or an object without an [is_syncing] key is read as "not
    syncing": the cells become [{false, null}] and nothing is shown. *)
Theorem X2_poll_without_flag_is_idle (wd : widget) (kbId : kb_id) (E : env)
  (w : world) (res : response) :
  missing kbId = false ->
  status_answer wd kbId E w = Resolved res ->
  has_key "is_syncing" (fields_of (res_data res)) = false ->
  st (exec E (checkSyncStatus wd kbId) w)
    = {| syncing := false; syncType := JNull |} /\
  notifications (effects E (checkSyncStatus wd kbId) w) = [].
Proof.
  intros H R Hk.
  rewrite (checkSyncStatus_resolved wd kbId E w res H R).
  split; [| apply (checkSyncStatus_requests wd kbId E w H)].
  assert (Hget : get (res_data res) "is_syncing" = JUndefined).
  { destruct (res_data res); simpl in *; try reflexivity.
    now apply assoc_without_key. }
  now rewrite Hget.
Qed.

Lemma X2_witness :
  st (exec (reporting JNull true) (checkSyncStatus Outlook (Some "kb1"))
        (with_cells (busy_with "outlook") (fresh both_form)))
    = {| syncing := false; syncType := JNull |} /\
  notifications
    (effects (reporting JNull true) (checkSyncStatus Outlook (Some "kb1"))
       (with_cells (busy_with "outlook") (fresh both_form))) = [].
Proof.
  exact (X2_poll_without_flag_is_idle Outlook (Some "kb1")
           (reporting JNull true)
           (with_cells (busy_with "outlook") (fresh both_form))
           {| res_data := JNull; res_message := JUndefined |}
           eq_refl eq_refl eq_refl).
Defined.

(** X3: a rejected status check sends its one request, shows nothing,
    and is not retried. The cells are reset to [{false, null}] only in
    the Outlook widget and only when [error.response.status] is the
    number 404; in every other case they keep their values. *)
Theorem X3_rejected_status_check (wd : widget) (kbId : kb_id) (E : env)
  (w : world) (error : failure) :
  missing kbId = false ->
  status_answer wd kbId E w = Rejected error ->
  requests (effects E (checkSyncStatus wd kbId) w) = [status_request wd kbId] /\
  notifications (effects E (checkSyncStatus wd kbId) w) = [] /\
  st (exec E (checkSyncStatus wd kbId) w) =
    match wd with
    | Outlook =>
        if is_num (response_status error) 404
        then {| syncing := false; syncType := JNull |}
        else st w
    | OneDrive | OneDriveBare => st w
    end.
Proof.
  intros H R.
  destruct (checkSyncStatus_requests wd kbId E w H) as [Hr Hn].
  split; [exact Hr | split; [exact Hn|]].
  destruct wd.
  - apply (outlook_checkSyncStatus_rejected kbId E w error H R).
  - apply (onedrive_checkSyncStatus_rejected OneDrive kbId E w error);
      [discriminate | exact H | exact R].
  - apply (onedrive_checkSyncStatus_rejected OneDriveBare kbId E w error);
      [discriminate | exact H | exact R].
Qed.

Lemma X3_witness :
  requests (effects (answering not_found true)
              (checkSyncStatus Outlook (Some "kb1"))
              (with_cells (busy_with "outlook") (fresh both_form)))
    = [status_request Outlook (Some "kb1")] /\
  notifications (effects (answering not_found true)
                   (checkSyncStatus Outlook (Some "kb1"))
                   (with_cells (busy_with "outlook") (fresh both_form))) = [] /\
  st (exec (answering not_found true) (checkSyncStatus Outlook (Some "kb1"))
        (with_cells (busy_with "outlook") (fresh both_form)))
    = {| syncing := false; syncType := JNull |}.
Proof.
  exact (X3_rejected_status_check Outlook (Some "kb1")
           (answering not_found true)
           (with_cells (busy_with "outlook") (fresh both_form))
           {| response_status := JNum 404 |} eq_refl eq_refl).
Defined.

(** ** What the operations leave alone *)

(** X4: the status check, the trigger and the cancel operation of every
    widget, whatever the id and whatever the backend answers, never
    write to the form store, never create or clear a timer and never
    move the clock. *)
Theorem X4_operations_keep_form_and_timers (wd : widget) (kbId : kb_id)
  (email folder : jsval) (E : env) (w : world) (op : action unit) :
  In op [checkSyncStatus wd kbId; triggerSync wd kbId email folder;
         cancelSync wd kbId] ->
  form (exec E op w) = form w /\
  timers (exec E op w) = timers w /\
  next_id (exec E op w) = next_id w /\
  now (exec E op w) = now w.
Proof.
  intros [<- | [<- | [<- | []]]]; unfold exec;
    destruct wd; unfold_ops; eval_action; crunch; auto.
Qed.

Lemma X4_witness :
  form (exec (answering accepted true)
          (triggerSync Outlook (Some "kb1") (JStr "a@b.com") (JStr "Inbox"))
          (fresh both_form)) = both_form.
Proof.
  exact (proj1 (X4_operations_keep_form_and_timers Outlook (Some "kb1")
                  (JStr "a@b.com") (JStr "Inbox") (answering accepted true)
                  (fresh both_form) _ (or_intror (or_introl eq_refl)))).
Defined.

(** ** Optimistic state and its reconciliation *)

Lemma is_str_tag (wd : widget) : is_str (JStr (tag wd)) (tag wd) = true.
Proof. destruct wd; reflexivity. Qed.

Lemma triggerSync_accepted (wd : widget) (kbId : kb_id) (email folder : jsval)
  (E : env) (w : world) (res : response) :
  missing kbId = false ->
  trigger_answer wd kbId email folder E w = Resolved res ->
  truthy (res_data res) = true ->
  st (exec E (triggerSync wd kbId email folder) w) =
    {| syncing := true; syncType := JStr (tag wd) |}.
Proof.
  unfold trigger_answer, trigger_opts, exec. intros H R Hd.
  destruct wd; unfold_ops; rewrite H; eval_action;
    unfold trace in *; simpl in *; rewrite R; simpl; rewrite Hd; reflexivity.
Qed.

(** X5: with the toggle on, an accepted trigger makes the widget render
    Enabled-Syncing at once, before any poll; the next resolved status
    check that does not report a sync puts it back to Enabled-Idle. *)
Theorem X5_optimistic_then_reconciled (wd : widget) (kbId : kb_id)
  (email folder : jsval) (E : env) (w : world) (res res' : response) :
  missing kbId = false ->
  truthy (field_value (form w) (enabled_key wd)) = true ->
  trigger_answer wd kbId email folder E w = Resolved res ->
  truthy (res_data res) = true ->
  status_answer wd kbId E (exec E (triggerSync wd kbId email folder) w)
    = Resolved res' ->
  truthy (get (res_data res') "is_syncing") = false ->
  rendered (render wd
    (props_of wd kbId (exec E (triggerSync wd kbId email folder) w)))
    = EnabledSyncing /\
  rendered (render wd
    (props_of wd kbId
       (exec E (checkSyncStatus wd kbId)
          (exec E (triggerSync wd kbId email folder) w))))
    = EnabledIdle.
Proof.
  intros H On R Hd R' Hidle.
  assert (Hst := triggerSync_accepted wd kbId email folder E w res H R Hd).
  destruct (triggerSync_frame wd kbId email folder E w) as (Hf & _).
  assert (Hst' := checkSyncStatus_resolved wd kbId E _ res' H R').
  rewrite Hidle in Hst'.
  destruct (callback_frame E (check_callback wd kbId)
              (exec E (triggerSync wd kbId email folder) w))
    as (_ & _ & _ & Hf').
  rewrite run_check_callback in Hf'.
  split.
  - unfold props_of. rewrite Hst, Hf.
    destruct wd; unfold rendered, render, OutlookMailSync.render,
      OneDriveSync.render, OneDriveSyncBare.render; simpl in *;
      rewrite On; reflexivity.
  - unfold props_of. rewrite Hst', Hf', Hf.
    destruct wd; unfold rendered, render, OutlookMailSync.render,
      OneDriveSync.render, OneDriveSyncBare.render; simpl in *;
      rewrite On; reflexivity.
Qed.

Lemma X5_witness :
  rendered (render Outlook
    (props_of Outlook (Some "kb1")
       (exec (answering accepted true)
          (triggerSync Outlook (Some "kb1") (JStr "a@b.com") (JStr "Inbox"))
          (fresh both_form)))) = EnabledSyncing /\
  rendered (render Outlook
    (props_of Outlook (Some "kb1")
       (exec (answering accepted true) (checkSyncStatus Outlook (Some "kb1"))
          (exec (answering accepted true)
             (triggerSync Outlook (Some "kb1") (JStr "a@b.com") (JStr "Inbox"))
             (fresh both_form))))) = EnabledIdle.
Proof.
  exact (X5_optimistic_then_reconciled Outlook (Some "kb1") (JStr "a@b.com")
           (JStr "Inbox") (answering accepted true) (fresh both_form)
           {| res_data := JBool true; res_message := JUndefined |}
           {| res_data := JBool true; res_message := JUndefined |}
           eq_refl eq_refl eq_refl eq_refl eq_refl eq_refl).
Defined.

Lemma onClickSyncNow_form (wd : widget) (p : props) (E : env) (w : world) :
  form (exec E (onClickSyncNow wd p) w) = form w.
Proof.
  unfold exec.
  destruct wd;
    unfold onClickSyncNow, OutlookMailSync.onClickSyncNow,
      OneDriveSync.onClickSyncNow, OneDriveSyncBare.onClickSyncNow;
    eval_action.
  - apply (triggerSync_frame Outlook (kbId p) _ _ E
             (log (GetFieldValue "outlook_folder")
                (log (GetFieldValue "outlook_email") w))).
  - apply (triggerSync_frame OneDrive (kbId p) _ _ E
             (log (ConsoleLog "OneDrive同步按钮被点击，参数:")
                (log (GetFieldValue "onedrive_folder_path")
                   (log (GetFieldValue "onedrive_email") w)))).
  - apply (triggerSync_frame OneDriveBare (kbId p) JUndefined JUndefined E w).
Qed.

(** X6: nothing deduplicates Sync Now. Pressed twice on the same render,
    with [kbId] present, it sends two trigger requests with the same
    body, whatever the first one was answered: the body built from the
    e-mail and folder values of the form in the Outlook widget and in
    the OneDrive widget with a folder field, [{kb_id, sync_type}] in
    the OneDrive widget without one. *)
Theorem X6_sync_now_twice_sends_twice (wd : widget) (p : props) (E : env)
  (w : world) :
  missing (kbId p) = false ->
  requests
    (trace (exec E (onClickSyncNow wd p) (exec E (onClickSyncNow wd p) w))) =
  requests (trace w) ++
  repeat (Request (trigger_url wd)
            (Some {| method := "POST";
                     data := sync_now_body wd (kbId p) (form w) |})) 2.
Proof.
  intros H. rewrite !trace_exec. unfold requests.
  rewrite !List.filter_app.
  fold (requests (effects E (onClickSyncNow wd p) w)).
  fold (requests (effects E (onClickSyncNow wd p)
                    (exec E (onClickSyncNow wd p) w))).
  rewrite !(onClickSyncNow_requests wd p E _ H), onClickSyncNow_form.
  rewrite <- app_assoc. now destruct wd.
Qed.

Lemma X6_witness :
  requests
    (trace (exec (answering refused true)
              (onClickSyncNow OneDriveBare
                 (props_of OneDriveBare (Some "kb1")
                    (fresh (onedrive_form true "a@b.com"))))
              (exec (answering refused true)
                 (onClickSyncNow OneDriveBare
                    (props_of OneDriveBare (Some "kb1")
                       (fresh (onedrive_form true "a@b.com"))))
                 (fresh (onedrive_form true "a@b.com"))))) =
  [Request "/api/kb/trigger_sync"
     (Some {| method := "POST";
              data := [("kb_id", JStr "kb1"); ("sync_type", JStr "onedrive")] |});
   Request "/api/kb/trigger_sync"
     (Some {| method := "POST";
              data := [("kb_id", JStr "kb1"); ("sync_type", JStr "onedrive")] |})].
Proof.
  exact (X6_sync_now_twice_sends_twice OneDriveBare
           (props_of OneDriveBare (Some "kb1")
              (fresh (onedrive_form true "a@b.com")))
           (answering refused true)
           (fresh (onedrive_form true "a@b.com")) eq_refl).
Defined.

(** ** What is rendered *)

(** ** The id changes while the widget is mounted *)

Lemma requests_log_other (e : event) (w : world) :
  is_request e = false -> requests (trace (log e w)) = requests (trace w).
Proof.
  intros H. rewrite trace_log. unfold requests.
  rewrite List.filter_app. simpl. rewrite H. apply app_nil_r.
Qed.

(** X7: a render with another present id replaces the poller: the old
    interval is cleared, the new id is checked at once, and exactly one
    interval is registered, for the new id; every later status request
    carries the new id, one per 5000 ms. *)
Theorem X7_new_id_replaces_poller (wd : widget) (old new : kb_id) (E : env)
  (w : world) (id due : nat) :
  timers w = [poll_timer wd old id due] ->
  missing new = false ->
  old <> new ->
  fst (change_kbId E wd old new (Some id) w) = Some (next_id w) /\
  timers (snd (change_kbId E wd old new (Some id) w)) =
    [poll_timer wd new (next_id w) (now w + 5000)] /\
  (forall n r, r < 5000 ->
     requests
       (trace (advance E (5000 * n + r)
                 (snd (change_kbId E wd old new (Some id) w)))) =
     requests (trace w) ++ repeat (status_request wd new) (S n)).
Proof.
  intros Ht Hnew Hne.
  assert (Hc : timers (cleanup E (Some id) w) = [])
    by now apply (cleanup_poll E wd old id due).
  assert (Heq : change_kbId E wd old new (Some id) w =
                mount E wd new (cleanup E (Some id) w)).
  { unfold change_kbId. destruct (decide (old = new)); [contradiction|].
    reflexivity. }
  rewrite Heq.
  destruct (mounted_timers E wd new (cleanup E (Some id) w) Hnew Hc)
    as (Hm & Hn & _ & Hr).
  unfold mounted in *.
  split; [now rewrite (mount_present E wd new _ Hnew)|].
  split; [exact Hm|].
  intros n r Hlt.
  rewrite (poll_cycles E wd new Hnew (next_id w) n r);
    [| rewrite Hm, Hn; reflexivity | exact Hlt].
  rewrite Hr.
  change (cleanup E (Some id) w) with
    (log (ClearInterval id)
       (set_timers
          (List.filter (fun t => negb (Nat.eqb (t_id t) id)) (timers w)) w)).
  rewrite requests_log_other by reflexivity.
  change (trace (set_timers ?ts w)) with (trace w).
  now rewrite <- app_assoc.
Qed.

Lemma X7_witness :
  timers
    (snd (change_kbId (reporting outlook_running true) Outlook (Some "kb1")
            (Some "kb2") (Some 0) (snd outlook_mounted))) =
  [poll_timer Outlook (Some "kb2") 1 5000].
Proof.
  exact (proj1 (proj2
           (X7_new_id_replaces_poller Outlook (Some "kb1") (Some "kb2")
              (reporting outlook_running true) (snd outlook_mounted) 0 5000
              eq_refl eq_refl ltac:(discriminate)))).
Defined.

(** ** The auto-trigger timeout *)

Lemma tick_auto_only (E : env) (wd : widget) (kbId : kb_id) (email : jsval)
  (cb : callback) (ia da : nat) (w : world) :
  auto_callback wd kbId email = Some cb ->
  timers w = [auto_timer cb ia da] ->
  timers (tick E w) =
    (if Nat.eqb da (S (now w)) then [] else [auto_timer cb ia da]) /\
  now (tick E w) = S (now w) /\
  triggers wd (tick E w) =
    triggers wd w +
    (if Nat.eqb da (S (now w)) then if missing kbId then 0 else 1 else 0).
Proof.
  intros Hcb H. rewrite tick_unfold, H.
  destruct (elapse E w) as (Ht & Hn & _ & _ & _ & Hq).
  rewrite H in Ht.
  assert (Hc : triggers wd (deliver E (set_now (S (now w)) w)) = triggers wd w)
    by exact (Hq (trigger_url wd)).
  cbn [List.filter auto_timer t_due].
  destruct (Nat.eqb da (S (now w))); cbn [fold_left].
  - destruct (fire_auto E wd kbId email cb Hcb ia da [] _ Ht
                (List.Forall_nil _)) as (Ht1 & Hn1 & Hc1).
    rewrite Ht1, Hn1, Hc1, Hn, Hc. auto.
  - rewrite Ht, Hn, Hc, Nat.add_0_r. auto.
Qed.

Lemma advance_auto_only (E : env) (wd : widget) (kbId : kb_id) (email : jsval)
  (cb : callback) (ia da k : nat) (w : world) :
  auto_callback wd kbId email = Some cb ->
  timers w = [auto_timer cb ia da] ->
  now w < da ->
  triggers wd (advance E k w) =
  triggers wd w +
  (if Nat.leb (da - now w) k then if missing kbId then 0 else 1 else 0).
Proof.
  intros Hcb. revert w. induction k as [|k IH]; intros w H Hlt; simpl.
  - destruct (Nat.leb (da - now w) 0) eqn:Hle.
    + apply Nat.leb_le in Hle. lia.
    + now rewrite Nat.add_0_r.
  - destruct (tick_auto_only E wd kbId email cb ia da w Hcb H)
      as (Ht & Hn & Hc).
    destruct (Nat.eqb da (S (now w))) eqn:Hd.
    + apply Nat.eqb_eq in Hd.
      destruct (advance_no_timers E k (tick E w) Ht) as (_ & _ & _ & Hq & _).
      unfold triggers at 1. rewrite Hq. fold (triggers wd (tick E w)).
      rewrite Hc.
      replace (Nat.leb (da - now w) (S k)) with true
        by (symmetry; apply Nat.leb_le; lia).
      reflexivity.
    + apply Nat.eqb_neq in Hd.
      rewrite (IH (tick E w) Ht) by lia.
      rewrite Hc, Hn, Nat.add_0_r.
      replace (Nat.leb (da - S (now w)) k) with (Nat.leb (da - now w) (S k));
        [reflexivity|].
      destruct (Nat.leb (da - now w) (S k)) eqn:A;
        destruct (Nat.leb (da - S (now w)) k) eqn:B; auto;
        [ apply Nat.leb_le in A; apply Nat.leb_gt in B; lia
        | apply Nat.leb_gt in A; apply Nat.leb_le in B; lia ].
Qed.

(** X8: the unmount clears the polling interval and nothing else. A
    OneDrive widget switched on with an e-mail in the form and unmounted
    [t < 1000] ms later keeps the pending timeout as its only timer,
    and with [kbId] present the trigger request is still sent, once,
    when the 1000 ms are over. *)
Theorem X8_auto_trigger_outlives_unmount (wd : widget) (E : env) (p : props)
  (w : world) (ip dp t : nat) :
  tag wd = "onedrive" ->
  truthy (syncEnabled p) = false ->
  truthy (field_value (form w) (email_key wd)) = true ->
  missing (kbId p) = false ->
  timers w = [poll_timer wd (kbId p) ip dp] ->
  ip < next_id w ->
  t < 1000 ->
  exists cb,
    auto_callback wd (kbId p) (field_value (form w) (email_key wd)) = Some cb /\
    timers (unmount E (Some ip)
              (advance E t (exec E (handleSyncChange wd p true) w))) =
      [auto_timer cb (next_id w) (now w + 1000)] /\
    forall k,
      triggers wd
        (advance E k
           (unmount E (Some ip)
              (advance E t (exec E (handleSyncChange wd p true) w)))) =
      triggers wd w + (if Nat.leb (1000 - t) k then 1 else 0).
Proof.
  intros Htag Hoff Hmail Hkb Ht Hip Hlt.
  destruct (handleSyncChange_enable wd E p w Htag Hoff Hmail)
    as (cb & Hcb & _ & Hexec).
  exists cb. split; [exact Hcb|]. rewrite Hexec.
  set (w1 := log (SetTimeout cb 1000)
               (add_timer cb 1000 None (log (GetFieldValue (email_key wd)) w))).
  assert (Ht1 : timers w1 =
                [poll_timer wd (kbId p) ip dp;
                 auto_timer cb (next_id w) (now w + 1000)])
    by (unfold w1; simpl; now rewrite Ht).
  assert (Hc1 : triggers wd w1 = triggers wd w).
  { unfold w1. rewrite triggers_log by reflexivity.
    change (triggers wd (add_timer ?c ?m ?o ?x)) with (triggers wd x).
    now rewrite triggers_log by reflexivity. }
  destruct (advance_before_timeout E wd (kbId p) _ cb Hcb ip (next_id w)
              (now w + 1000) t w1 dp Ht1) as (dp' & Ht2 & Hn2 & Hc2);
    [lia | unfold w1; simpl; lia |].
  assert (Hne : Nat.eqb (next_id w) ip = false) by (apply Nat.eqb_neq; lia).
  assert (Ht3 : timers (unmount E (Some ip) (advance E t w1)) =
                [auto_timer cb (next_id w) (now w + 1000)]).
  { unfold unmount, cleanup, exec. simpl. rewrite Ht2. simpl.
    now rewrite Nat.eqb_refl, Hne. }
  split; [exact Ht3|]. intros k.
  rewrite (advance_auto_only E wd (kbId p) _ cb (next_id w) (now w + 1000) k
             _ Hcb Ht3).
  - unfold unmount, cleanup, exec. simpl.
    rewrite triggers_log by reflexivity.
    change (triggers wd (set_timers ?ts ?x)) with (triggers wd x).
    rewrite Hc2, Hc1, Hkb, Hn2.
    replace (now w + 1000 - (now w1 + t)) with (1000 - t)
      by (unfold w1; simpl; lia).
    reflexivity.
  - unfold unmount, cleanup, exec. simpl. rewrite Hn2. unfold w1. simpl. lia.
Qed.

Lemma X8_witness :
  exists cb,
    auto_callback OneDrive (Some "kb1")
      (field_value (form onedrive_polling) (email_key OneDrive)) = Some cb /\
    timers (unmount (answering accepted true) (Some 0)
              (advance (answering accepted true) 500
                 (exec (answering accepted true)
                    (handleSyncChange OneDrive
                       (props_of OneDrive (Some "kb1") onedrive_polling) true)
                    onedrive_polling))) =
      [auto_timer cb (next_id onedrive_polling) (now onedrive_polling + 1000)].
Proof.
  destruct (X8_auto_trigger_outlives_unmount OneDrive
              (answering accepted true)
              (props_of OneDrive (Some "kb1") onedrive_polling)
              onedrive_polling 0 5000 500
              eq_refl eq_refl eq_refl eq_refl eq_refl
              ltac:(vm_compute; lia) ltac:(lia)) as (cb & A & B & _).
  exists cb. exact (conj A B).
Defined.

(** X9: in the OneDrive widgets the toggle going on schedules nothing
    when the previous render already had it on, or when the form holds
    no e-mail: no timer is set and no request is sent. *)
Theorem X9_no_auto_trigger_without_cause (wd : widget) (E : env) (p : props)
  (w : world) :
  tag wd = "onedrive" ->
  truthy (syncEnabled p) = true \/
  truthy (field_value (form w) (email_key wd)) = false ->
  timers (exec E (handleSyncChange wd p true) w) = timers w /\
  requests (effects E (handleSyncChange wd p true) w) = [] /\
  effects E (handleSyncChange wd p true) w =
    (if truthy (syncEnabled p) then [] else [GetFieldValue (email_key wd)]).
Proof.
  intros Htag Hcause. unfold exec.
  destruct wd; [discriminate Htag | |]; simpl in Hcause;
    unfold_ops; eval_action;
    destruct (truthy (syncEnabled p)); simpl; auto;
    destruct Hcause as [Hc | Hc]; try discriminate; rewrite Hc; simpl; auto.
Qed.

Lemma X9_witness :
  timers (exec (answering accepted true)
            (handleSyncChange OneDrive
               (props_of OneDrive (Some "kb1") (fresh ∅)) true)
            (fresh ∅)) = [] /\
  requests (effects (answering accepted true)
              (handleSyncChange OneDrive
                 (props_of OneDrive (Some "kb1") (fresh ∅)) true)
              (fresh ∅)) = [].
Proof.
  destruct (X9_no_auto_trigger_without_cause OneDrive
              (answering accepted true)
              (props_of OneDrive (Some "kb1") (fresh ∅)) (fresh ∅)
              eq_refl ltac:(right; reflexivity)) as (A & B & _).
  exact (conj A B).
Defined.

(** * Properties of the role pages *)

(** ** The bind-role modal *)

Lemma is_bound_spec (bound : list IRole) (role : IRole) :
  UserTable.is_bound bound role = true <-> In (r_id role) (map r_id bound).
Proof.
  unfold UserTable.is_bound. rewrite existsb_exists, in_map_iff. split.
  - intros (ur & Hin & Heq). apply String.eqb_eq in Heq. eauto.
  - intros (ur & Heq & Hin). exists ur. split; [exact Hin|].
    now apply String.eqb_eq.
Qed.

(** X10: the roles offered in the bind-role modal are exactly the roles
    of the list whose id is not the id of a role already bound to the
    user, in the list's order; the "all roles assigned" line shows
    exactly when every role's id is bound; a user without an entry in
    the map is offered every role. *)
Theorem X10_available_roles (roles : list IRole)
  (m : gmap string (list IRole)) (userId : string) :
  (forall role,
      In role (UserTable.available_roles roles m userId) <->
      In role roles /\
      ~ In (r_id role) (map r_id (UserTable.bound_roles m userId))) /\
  (UserTable.all_roles_assigned roles m userId = true <->
   forall role, In role roles ->
                In (r_id role) (map r_id (UserTable.bound_roles m userId))) /\
  (m !! userId = None -> UserTable.available_roles roles m userId = roles).
Proof.
  split; [|split].
  - intros role. unfold UserTable.available_roles.
    rewrite List.filter_In, negb_true_iff, <- not_true_iff_false, is_bound_spec.
    reflexivity.
  - unfold UserTable.all_roles_assigned, UserTable.available_roles.
    rewrite Nat.eqb_eq, length_zero_iff_nil. split.
    + intros Hnil role Hin.
      destruct (UserTable.is_bound (UserTable.bound_roles m userId) role)
        eqn:Hb; [now apply is_bound_spec|].
      assert (Hf : In role
                     (List.filter
                        (fun r => negb (UserTable.is_bound
                                          (UserTable.bound_roles m userId) r))
                        roles))
        by (apply List.filter_In; rewrite Hb; auto).
      rewrite Hnil in Hf. destruct Hf.
    + intros Hall. induction roles as [| r rs IH]; simpl; [reflexivity|].
      assert (Hb : UserTable.is_bound (UserTable.bound_roles m userId) r = true)
        by (apply is_bound_spec, Hall; now left).
      rewrite Hb. simpl. apply IH. intros role Hin. apply Hall. now right.
  - intros Hnone. unfold UserTable.available_roles, UserTable.bound_roles.
    rewrite Hnone. simpl. induction roles as [| r rs IH]; simpl; congruence.
Qed.

(** ** Fetching every user's roles *)

Lemma X10_witness :
  UserTable.available_roles [editor; auditor] ∅ "u1" = [editor; auditor].
Proof.
  exact (proj2 (proj2 (X10_available_roles [editor; auditor] ∅ "u1"))
           (lookup_empty "u1")).
Defined.

Lemma fetchUserRoles_calls (get : nat -> string -> roles_outcome) (n : nat)
  (data : list UserTable.ITenantUser) (m : gmap string (list IRole)) :
  snd (fst (UserTable.fetchUserRoles get n data m)) =
  map (fun u => UserTable.GetUserRoles (UserTable.user_id u)) data.
Proof.
  revert n m. induction data as [| u rest IH]; intros n m; simpl;
    [reflexivity|]. now rewrite IH.
Qed.

Lemma fetchUserRoles_other (get : nat -> string -> roles_outcome) (n : nat)
  (data : list UserTable.ITenantUser) (m : gmap string (list IRole))
  (k : string) :
  ~ In k (map UserTable.user_id data) ->
  fst (fst (UserTable.fetchUserRoles get n data m)) !! k = m !! k.
Proof.
  revert n m. induction data as [| u rest IH]; intros n m Hk; simpl;
    [reflexivity|].
  simpl in Hk. rewrite IH by tauto. apply lookup_insert_ne. tauto.
Qed.

Lemma fetchUserRoles_dom (get : nat -> string -> roles_outcome) (n : nat)
  (data : list UserTable.ITenantUser) (m : gmap string (list IRole))
  (k : string) :
  is_Some (fst (fst (UserTable.fetchUserRoles get n data m)) !! k) <->
  is_Some (m !! k) \/ In k (map UserTable.user_id data).
Proof.
  revert n m. induction data as [| u rest IH]; intros n m; simpl; [tauto|].
  rewrite IH, lookup_insert_is_Some. split.
  - intros [[-> | [_ H]] | H]; auto.
  - intros [H | [-> | H]]; auto.
    destruct (decide (UserTable.user_id u = k)); auto.
Qed.

Lemma fetchUserRoles_entry (get : nat -> string -> roles_outcome) (n : nat)
  (data : list UserTable.ITenantUser) (m : gmap string (list IRole))
  (i : nat) (u : UserTable.ITenantUser) :
  List.NoDup (map UserTable.user_id data) ->
  nth_error data i = Some u ->
  fst (fst (UserTable.fetchUserRoles get n data m)) !! UserTable.user_id u =
  Some (roles_of (get (n + i) (UserTable.user_id u))).
Proof.
  revert n m i. induction data as [| v rest IH]; intros n m i Hnd Hi.
  - destruct i; discriminate.
  - simpl. apply List.NoDup_cons_iff in Hnd as [Hv Hnd].
    destruct i as [| i]; simpl in Hi.
    + injection Hi as ->. rewrite fetchUserRoles_other by exact Hv.
      rewrite lookup_insert_eq, Nat.add_0_r. reflexivity.
    + rewrite (IH (S n) _ i Hnd Hi). do 3 f_equal. lia.
Qed.

(** X11: the effect that fetches the users' roles does nothing for a
    missing or empty user list. Otherwise it calls [getUserRoles] once
    per row, in row order, and replaces the map by one that has an
    entry for exactly the listed users; with distinct user ids the
    entry of the [i]-th row is what the [i]-th call returned, and the
    empty list when that call failed or carried no roles. *)
Theorem X11_fetch_all_user_roles (get : nat -> string -> roles_outcome)
  (u : UserTable.ITenantUser) (rest : list UserTable.ITenantUser)
  (s : UserTable.state) :
  UserTable.fetchUserRolesEffect get None s = (s, [], []) /\
  UserTable.fetchUserRolesEffect get (Some []) s = (s, [], []) /\
  snd (fst (UserTable.fetchUserRolesEffect get (Some (u :: rest)) s)) =
    map (fun v => UserTable.GetUserRoles (UserTable.user_id v)) (u :: rest) /\
  (forall k,
      is_Some (UserTable.userRolesMap
                 (fst (fst (UserTable.fetchUserRolesEffect get
                              (Some (u :: rest)) s))) !! k) <->
      In k (map UserTable.user_id (u :: rest))) /\
  (List.NoDup (map UserTable.user_id (u :: rest)) ->
   forall i v, nth_error (u :: rest) i = Some v ->
     UserTable.userRolesMap
       (fst (fst (UserTable.fetchUserRolesEffect get (Some (u :: rest)) s)))
       !! UserTable.user_id v =
     Some (roles_of (get i (UserTable.user_id v)))).
Proof.
  split; [reflexivity | split; [reflexivity|]].
  unfold UserTable.fetchUserRolesEffect.
  cbn [fst snd UserTable.set_map UserTable.userRolesMap].
  split; [apply fetchUserRoles_calls | split].
  - intros k. rewrite fetchUserRoles_dom, lookup_empty.
    split; [intros [[x Hx] | H]; [discriminate | exact H] | auto].
  - intros Hnd i v Hi.
    now rewrite (fetchUserRoles_entry get 0 (u :: rest) ∅ i v Hnd Hi).
Qed.

Lemma X11_witness :
  UserTable.userRolesMap
    (fst (fst (UserTable.fetchUserRolesEffect first_call_fails
                 (Some [alice; bob]) empty_table)))
    !! UserTable.user_id bob =
  Some (roles_of (first_call_fails 1 (UserTable.user_id bob))).
Proof.
  apply (proj2 (proj2 (proj2 (proj2
           (X11_fetch_all_user_roles first_call_fails alice [bob]
              empty_table))))).
  - repeat constructor; simpl; intuition discriminate.
  - reflexivity.
Defined.

(** ** Adding and removing a role *)

(** X12: [handleAddRole] and [handleRemoveRole]. With an empty user id
    or role id they show the missing-parameters error and do nothing
    else. Otherwise the POST is the first call, the in-progress flag is
    off again at the end whatever happened, and no entry of the map
    other than the user's own is touched. The user's entry changes only
    when the POST answered [code === 0] and the roles were read back,
    and then it is the list read back; a POST the backend accepted
    whose read-back fails is reported as a failure and leaves the map
    as it was. *)
Theorem X12_role_change (c : UserTable.role_change)
  (posted : UserTable.post_outcome) (refetched : roles_outcome)
  (userId roleId : string) (s : UserTable.state) :
  (userId = "" \/ roleId = "" ->
   UserTable.changeRole c posted refetched userId roleId s =
     (s, [], [UserTable.Error "setting.missingRequiredParams" None])) /\
  (userId <> "" -> roleId <> "" ->
   UserTable.roleActionInProgress
     (fst (fst (UserTable.changeRole c posted refetched userId roleId s)))
     = false /\
   hd_error (snd (fst (UserTable.changeRole c posted refetched userId roleId s)))
     = Some (UserTable.post_call c roleId userId) /\
   (forall k, k <> userId ->
      UserTable.userRolesMap
        (fst (fst (UserTable.changeRole c posted refetched userId roleId s)))
        !! k = UserTable.userRolesMap s !! k) /\
   UserTable.userRolesMap
     (fst (fst (UserTable.changeRole c posted refetched userId roleId s)))
     !! userId =
     match posted, refetched with
     | UserTable.PostResolved code _, RolesResolved roles =>
         if is_num code 0 then Some (roles_or_empty roles)
         else UserTable.userRolesMap s !! userId
     | _, _ => UserTable.userRolesMap s !! userId
     end /\
   (In (UserTable.Success (UserTable.done_key c))
      (snd (UserTable.changeRole c posted refetched userId roleId s)) <->
    exists code message roles,
      posted = UserTable.PostResolved code message /\
      is_num code 0 = true /\ refetched = RolesResolved roles) /\
   (forall code message,
      posted = UserTable.PostResolved code message -> is_num code 0 = true ->
      refetched = RolesRejected ->
      UserTable.userRolesMap
        (fst (fst (UserTable.changeRole c posted refetched userId roleId s)))
        = UserTable.userRolesMap s /\
      In (UserTable.Error (UserTable.failed_key c) None)
        (snd (UserTable.changeRole c posted refetched userId roleId s)))).
Proof.
  split.
  - intros H. unfold UserTable.changeRole.
    destruct H as [-> | ->]; simpl; [reflexivity|].
    now rewrite orb_true_r.
  - intros Hu Hr. unfold UserTable.changeRole.
    apply String.eqb_neq in Hu, Hr. rewrite Hu, Hr. simpl.
    split; [| split; [| split; [| split; [| split]]]].
    + destruct posted as [| code message]; simpl; [reflexivity|].
      destruct (is_num code 0); [destruct refetched|]; reflexivity.
    + destruct posted as [| code message]; simpl; [reflexivity|].
      destruct (is_num code 0); [destruct refetched|]; reflexivity.
    + intros k Hk. destruct posted as [| code message]; simpl; [reflexivity|].
      destruct (is_num code 0); [destruct refetched|]; simpl; try reflexivity.
      apply lookup_insert_ne. congruence.
    + destruct posted as [| code message]; simpl;
        [destruct refetched; reflexivity|].
      destruct (is_num code 0); destruct refetched; simpl; try reflexivity.
      apply lookup_insert_eq.
    + split.
      * destruct posted as [| code message]; simpl.
        { intros H. repeat destruct H as [H | H]; try discriminate H.
          destruct H. }
        destruct (is_num code 0) eqn:Hc; [destruct refetched as [| roles]|];
          simpl; intros H.
        { repeat destruct H as [H | H]; try discriminate H. destruct H. }
        { eauto 6. }
        { repeat destruct H as [H | H]; try discriminate H. destruct H. }
      * intros (code & message & roles & -> & Hc & ->). rewrite Hc. simpl.
        auto.
    + intros code message -> Hc ->. rewrite Hc. simpl. auto.
Qed.

Lemma X12_witness :
  UserTable.userRolesMap
    (fst (fst (UserTable.handleAddRole
                 (UserTable.PostResolved (JNum 0) (JStr "success"))
                 RolesRejected "u1" editor empty_table)))
    = UserTable.userRolesMap empty_table /\
  In (UserTable.Error (UserTable.failed_key UserTable.AddRole) None)
    (snd (UserTable.handleAddRole
            (UserTable.PostResolved (JNum 0) (JStr "success"))
            RolesRejected "u1" editor empty_table)).
Proof.
  destruct (proj2 (X12_role_change UserTable.AddRole
                     (UserTable.PostResolved (JNum 0) (JStr "success"))
                     RolesRejected "u1" (r_id editor) empty_table)
              ltac:(discriminate) ltac:(discriminate))
    as (_ & _ & _ & _ & _ & H).
  exact (H (JNum 0) (JStr "success") eq_refl eq_refl eq_refl).
Defined.

(** ** The tenant table *)

Lemma roles_in_spec (tenantId : string) (all : list IRole) (role : IRole) :
  In role (TenantTable.roles_in tenantId all) <->
  In role all /\ r_tenant_id role = tenantId.
Proof.
  unfold TenantTable.roles_in. now rewrite List.filter_In, String.eqb_eq.
Qed.

Lemma fetchUserRolesForTenants_calls (get : nat -> roles_outcome) (n : nat)
  (data : list TenantTable.ITenant) (m : gmap string (list IRole)) :
  snd (TenantTable.fetchUserRolesForTenants get n data m) = n + length data.
Proof.
  revert n m. induction data as [| t rest IH]; intros n m; simpl; [lia|].
  rewrite IH. lia.
Qed.

Lemma fetchUserRolesForTenants_own (get : nat -> roles_outcome) (n : nat)
  (data : list TenantTable.ITenant) (m : gmap string (list IRole)) :
  (forall t rs role, m !! t = Some rs -> In role rs -> r_tenant_id role = t) ->
  forall t rs role,
    fst (TenantTable.fetchUserRolesForTenants get n data m) !! t = Some rs ->
    In role rs -> r_tenant_id role = t.
Proof.
  revert n m. induction data as [| x rest IH]; intros n m Hm; simpl;
    [exact Hm|].
  apply IH. intros t rs role Hl Hin.
  rewrite lookup_insert in Hl. destruct (decide (TenantTable.tenant_id x = t)).
  - injection Hl as <-. subst t. now apply roles_in_spec in Hin.
  - now apply (Hm t rs).
Qed.

Lemma fetchUserRolesForTenants_dom (get : nat -> roles_outcome) (n : nat)
  (data : list TenantTable.ITenant) (m : gmap string (list IRole))
  (k : string) :
  is_Some (fst (TenantTable.fetchUserRolesForTenants get n data m) !! k) <->
  is_Some (m !! k) \/ In k (map TenantTable.tenant_id data).
Proof.
  revert n m. induction data as [| x rest IH]; intros n m; simpl; [tauto|].
  rewrite IH, lookup_insert_is_Some. split.
  - intros [[-> | [_ H]] | H]; auto.
  - intros [H | [-> | H]]; auto.
    destruct (decide (TenantTable.tenant_id x = k)); auto.
Qed.

(** X13: the effect that fetches the signed-in user's roles per tenant
    returns at once, without a call and without touching the state,
    for a missing or empty tenant list. Otherwise it calls
    [getUserRoles] once per row, and the map it sets has an entry for
    exactly the listed tenants, each holding only roles whose
    [tenant_id] is that tenant's. *)
Theorem X13_tenant_roles (get : nat -> roles_outcome)
  (t : TenantTable.ITenant) (rest : list TenantTable.ITenant)
  (userRoles : gmap string (list IRole)) :
  TenantTable.fetchEffect get None userRoles = (userRoles, 0) /\
  TenantTable.fetchEffect get (Some []) userRoles = (userRoles, 0) /\
  snd (TenantTable.fetchEffect get (Some (t :: rest)) userRoles)
    = length (t :: rest) /\
  (forall k,
      is_Some (fst (TenantTable.fetchEffect get (Some (t :: rest)) userRoles)
               !! k) <->
      In k (map TenantTable.tenant_id (t :: rest))) /\
  (forall k rs role,
      fst (TenantTable.fetchEffect get (Some (t :: rest)) userRoles) !! k
        = Some rs ->
      In role rs -> r_tenant_id role = k).
Proof.
  split; [reflexivity | split; [reflexivity|]].
  unfold TenantTable.fetchEffect. split; [| split].
  - now rewrite fetchUserRolesForTenants_calls.
  - intros k. rewrite fetchUserRolesForTenants_dom, lookup_empty.
    split; [intros [[x Hx] | H]; [discriminate | exact H] | auto].
  - apply fetchUserRolesForTenants_own. intros k rs role Hl.
    rewrite lookup_empty in Hl. discriminate.
Qed.

Lemma X13_witness :
  fst (TenantTable.fetchEffect both_roles (Some [home; guest]) ∅) !! "t2"
    = Some [auditor] /\
  r_tenant_id auditor = "t2".
Proof.
  assert (H : fst (TenantTable.fetchEffect both_roles (Some [home; guest]) ∅)
                !! "t2" = Some [auditor]) by reflexivity.
  split; [exact H|].
  exact (proj2 (proj2 (proj2 (proj2
    (X13_tenant_roles both_roles home [guest] ∅)))) "t2" [auditor] auditor H
    (or_introl eq_refl)).
Defined.

(** ** The role service *)

Lemma fetchRoles_data get tenant :
  RoleService.rt_data (RoleService.fetchRoles get tenant) =
  match get (RoleService.list_url tenant) with
  | RoleService.GetResolved (Some r) => roles_or_empty (RoleService.rt_data r)
  | _ => []
  end.
Proof.
  unfold RoleService.fetchRoles.
  destruct (get _) as [|[r|]]; reflexivity.
Qed.

(** X14: a refresh of the role list never keeps what was listed before:
    afterwards the list is the roles of the server's answer when the
    request resolved with an envelope carrying them, and empty in every
    other case (rejected request, empty response, envelope without
    roles); the loading flag is released. The dataset form's own role
    list is filled the same way from the unscoped URL, leaving the
    permission and role values alone. *)
Theorem X14_role_list_refresh get tenant s v :
  let s' := RoleService.fetchRoleList get tenant s in
  let v' := GeneralForm.getRoles get v in
  RoleService.loading s' = false /\
  (forall r rs,
     get (RoleService.list_url tenant) = RoleService.GetResolved (Some r) ->
     RoleService.rt_data r = Some rs -> RoleService.roles s' = rs) /\
  (get (RoleService.list_url tenant) = RoleService.GetRejected ->
   RoleService.roles s' = []) /\
  (get (RoleService.list_url tenant) = RoleService.GetResolved None ->
   RoleService.roles s' = []) /\
  (forall r,
     get (RoleService.list_url tenant) = RoleService.GetResolved (Some r) ->
     RoleService.rt_data r = None -> RoleService.roles s' = []) /\
  (missing tenant = true -> GeneralForm.roles v' = RoleService.roles s') /\
  GeneralForm.loading v' = false /\
  GeneralForm.permission v' = GeneralForm.permission v /\
  GeneralForm.roleId v' = GeneralForm.roleId v.
Proof.
  cbn zeta.
  assert (Hs : RoleService.roles (RoleService.fetchRoleList get tenant s) =
               RoleService.rt_data (RoleService.fetchRoles get tenant))
    by reflexivity.
  rewrite Hs, fetchRoles_data.
  repeat split.
  - intros r rs -> Hr. now rewrite Hr.
  - now intros ->.
  - now intros ->.
  - intros r -> Hr. now rewrite Hr.
  - intros Hm. cbn [GeneralForm.getRoles GeneralForm.roles roles_or_empty].
    rewrite fetchRoles_data. unfold RoleService.list_url.
    now rewrite Hm.
Qed.

Lemma X14_witness :
  RoleService.roles
    (RoleService.fetchRoleList two_roles_backend (Some "t1")
       {| RoleService.loading := false; RoleService.roles := [] |})
  = [editor; auditor] /\
  RoleService.roles
    (RoleService.fetchRoleList no_roles_backend (Some "t1")
       {| RoleService.loading := false; RoleService.roles := [editor] |})
  = [] /\
  GeneralForm.roles (GeneralForm.getRoles two_roles_backend private_view)
  = [editor; auditor].
Proof.
  split; [|split].
  - exact (proj1 (proj2 (X14_role_list_refresh two_roles_backend (Some "t1")
             {| RoleService.loading := false; RoleService.roles := [] |}
             private_view)) _ _ eq_refl eq_refl).
  - exact (proj1 (proj2 (proj2 (X14_role_list_refresh no_roles_backend
             (Some "t1")
             {| RoleService.loading := false; RoleService.roles := [editor] |}
             private_view))) eq_refl).
  - reflexivity.
Defined.

(** X15: creating, updating or deleting a role reports success exactly
    when the write request resolved, whatever the refresh that follows
    does: a resolved write shows the success message and leaves the
    refreshed list (empty when the refresh failed), a rejected one shows
    nothing and keeps the list. The loading flag is always released. The
    create dialog closes exactly when its form validated and the create
    request resolved; when validation fails the list and the dialog stay
    as they are and nothing is shown. *)
Theorem X15_role_write done written get tenant s validated visible :
  let r := RoleService.writeRole done written get tenant s in
  let m := RoleService.handleModalOk validated written get tenant visible s in
  RoleService.loading (snd (fst r)) = false /\
  (fst (fst r) = true <-> written = RoleService.WriteResolved) /\
  (written = RoleService.WriteResolved ->
   snd r = [RoleService.Success done] /\
   snd (fst r) = RoleService.fetchRoleList get tenant s) /\
  (written = RoleService.WriteRejected ->
   snd r = [] /\ RoleService.roles (snd (fst r)) = RoleService.roles s) /\
  (written = RoleService.WriteResolved ->
   get (RoleService.list_url tenant) = RoleService.GetRejected ->
   fst (fst r) = true /\ RoleService.roles (snd (fst r)) = []) /\
  fst (fst m) =
    visible && negb (validated &&
      match written with RoleService.WriteResolved => true | _ => false end) /\
  (validated = false -> snd (fst m) = s /\ snd m = []) /\
  (validated = true ->
   snd (fst m) = snd (fst (RoleService.handleCreateRole written get tenant s)) /\
   snd m = snd (RoleService.handleCreateRole written get tenant s)).
Proof.
  cbn zeta. unfold RoleService.handleModalOk, RoleService.handleCreateRole,
    RoleService.writeRole.
  split; [now destruct written|].
  split; [destruct written; cbn; split; congruence|].
  split; [intros ->; now split|].
  split; [intros ->; now split|].
  split.
  { intros -> Hg. split; [reflexivity|].
    cbn [fst snd].
    change (RoleService.rt_data (RoleService.fetchRoles get tenant) = []).
    now rewrite fetchRoles_data, Hg. }
  split; [now destruct validated, visible, written|].
  split; intros ->; now split.
Qed.

Lemma X15_witness :
  fst (fst (RoleService.handleCreateRole RoleService.WriteResolved
              no_roles_backend (Some "t1")
              {| RoleService.loading := false;
                 RoleService.roles := [editor] |})) = true /\
  RoleService.roles
    (snd (fst (RoleService.handleCreateRole RoleService.WriteResolved
                 no_roles_backend (Some "t1")
                 {| RoleService.loading := false;
                    RoleService.roles := [editor] |}))) = [].
Proof.
  exact (proj1 (proj2 (proj2 (proj2 (proj2
    (X15_role_write "message.created" RoleService.WriteResolved
       no_roles_backend (Some "t1")
       {| RoleService.loading := false; RoleService.roles := [editor] |}
       true true))))) eq_refl eq_refl).
Defined.

(** X16: the three writes of the role detail page do nothing and return
    false without a role id. With one they return true exactly when the
    write request resolved, showing the success message then and nothing
    otherwise, and release the loading flag; after a resolved write the
    role shown is the one just read back ([null] when the answer carries
    none), but a failed read-back keeps the role shown before, unlike
    the role list, which a failed refresh empties. *)
Theorem X16_role_detail_write roleId written got s :
  let r := RoleService.writeDetail roleId written got s in
  (missing roleId = true -> r = (false, s, [])) /\
  (missing roleId = false ->
   RoleService.d_loading (snd (fst r)) = false /\
   (fst (fst r) = true <-> written = RoleService.WriteResolved) /\
   (written = RoleService.WriteRejected ->
    snd r = [] /\ RoleService.role (snd (fst r)) = RoleService.role s) /\
   (written = RoleService.WriteResolved ->
    snd r = [RoleService.Success "message.updated"] /\
    RoleService.role (snd (fst r)) =
      match got with
      | RoleService.DetailResolved data => data
      | RoleService.DetailRejected => RoleService.role s
      end)).
Proof.
  cbn zeta. unfold RoleService.writeDetail, RoleService.fetchRoleInfo.
  split; intros Hm; rewrite Hm; [reflexivity|].
  split; [now destruct written, got|].
  split; [destruct written; cbn; split; congruence|].
  split; intros ->; split; try reflexivity.
  now destruct got.
Qed.

Lemma X16_witness :
  RoleService.writeDetail None RoleService.WriteResolved
    (RoleService.DetailResolved (Some editor))
    {| RoleService.d_loading := false; RoleService.role := None |}
  = (false, {| RoleService.d_loading := false; RoleService.role := None |}, [])
  /\
  RoleService.role
    (snd (fst (RoleService.writeDetail (Some "r1") RoleService.WriteResolved
                 RoleService.DetailRejected
                 {| RoleService.d_loading := false;
                    RoleService.role := Some editor |}))) = Some editor.
Proof.
  split.
  - exact (proj1 (X16_role_detail_write None RoleService.WriteResolved
             (RoleService.DetailResolved (Some editor))
             {| RoleService.d_loading := false; RoleService.role := None |})
             eq_refl).
  - exact (proj2 (proj2 (proj2 (proj2 (proj2 (X16_role_detail_write
             (Some "r1") RoleService.WriteResolved RoleService.DetailRejected
             {| RoleService.d_loading := false;
                RoleService.role := Some editor |}) eq_refl))) eq_refl)).
Defined.

(** ** The dataset form *)

Lemma apply_keeps_role_rule v c :
  (GeneralForm.roleId v <> "" -> GeneralForm.permission v = "role") ->
  GeneralForm.roleId (GeneralForm.apply v c) <> "" ->
  GeneralForm.permission (GeneralForm.apply v c) = "role".
Proof.
  intros Hv. destruct c as [value|id]; cbn.
  - destruct (String.eqb_spec value "role") as [->|]; cbn; congruence.
  - unfold GeneralForm.select_shown.
    destruct (String.eqb_spec (GeneralForm.permission v) "role") as [He|];
      cbn; [|exact Hv].
    destruct (GeneralForm.loading v); cbn; auto.
Qed.

Lemma apply_keeps_roles v c :
  GeneralForm.roles (GeneralForm.apply v c) = GeneralForm.roles v /\
  GeneralForm.loading (GeneralForm.apply v c) = GeneralForm.loading v.
Proof.
  destruct c; cbn; [easy|].
  now destruct (GeneralForm.select_shown v && negb (GeneralForm.loading v)).
Qed.

(** X17: whatever the user does with the permission radio and the role
    select, a role id is only ever kept together with the permission
    "role": if the form starts that way, it stays that way after any
    sequence of changes; choosing a permission other than "role" always
    ends with an empty role id, and choosing "role" keeps the id chosen
    before. The changes never touch the list of roles offered. *)
Theorem X17_role_id_needs_role_permission cs v :
  (GeneralForm.roleId v <> "" -> GeneralForm.permission v = "role") ->
  let v' := GeneralForm.run v cs in
  (GeneralForm.roleId v' <> "" -> GeneralForm.permission v' = "role") /\
  GeneralForm.roles v' = GeneralForm.roles v /\
  (forall value,
     value <> "role" ->
     GeneralForm.roleId
       (GeneralForm.apply v' (GeneralForm.ChoosePermission value)) = "") /\
  GeneralForm.roleId
    (GeneralForm.apply v' (GeneralForm.ChoosePermission "role")) =
  GeneralForm.roleId v'.
Proof.
  cbn zeta. unfold GeneralForm.run.
  revert v. induction cs as [|c cs IH]; intros v Hv.
  - cbn [fold_left]. repeat split; auto.
    intros value Hne. cbn.
    now destruct (String.eqb_spec value "role").
  - cbn [fold_left].
    destruct (IH (GeneralForm.apply v c) (apply_keeps_role_rule v c Hv))
      as (H1 & H2 & H3 & H4).
    repeat split; auto.
    rewrite H2. apply apply_keeps_roles.
Qed.

Lemma X17_witness :
  GeneralForm.permission
    (GeneralForm.run private_view
       [GeneralForm.ChoosePermission "role"; GeneralForm.ChooseRole "r1"])
  = "role" /\
  GeneralForm.roleId
    (GeneralForm.apply
       (GeneralForm.run private_view
          [GeneralForm.ChoosePermission "role"; GeneralForm.ChooseRole "r1"])
       (GeneralForm.ChoosePermission "team"))
  = "".
Proof.
  destruct (X17_role_id_needs_role_permission
     [GeneralForm.ChoosePermission "role"; GeneralForm.ChooseRole "r1"]
     private_view ltac:(intros H; now contradiction H)) as (H1 & _ & H3 & _).
  split.
  - apply H1. vm_compute. discriminate.
  - apply H3. discriminate.
Defined.
